(** * QGIS Plugin Template: a shallow embedding of the plugin's glue code

    The development follows the three source modules of the plugin:
    - [plugin_template/dialogs/settings_dock.py]  (module [SettingsDock]),
    - [plugin_template/dialogs/sample_dock.py]    (module [SampleDock]),
    - [plugin_template/plugin_template.py]        (module [Plugin]).

    Python objects are records, attribute mutation is explicit state
    passing, and a call that may raise returns an [outcome] next to the
    state it leaves behind.  What the host application and the widget
    toolkit contribute (the preference store, the layer registry, the
    widgets' own clamping rules, the exceptions a call into the host may
    raise) is modelled in the modules [Py], [Qt] and [Qgis]. *)

From stdpp Require Import gmap strings list pretty.
From Stdlib Require Import Ascii String QArith Qround.

#[local] Open Scope Z_scope.
#[local] Open Scope string_scope.

(** ** Python values and exceptions *)

Module Py.

(** The exception classes the three modules mention or can meet.  Every
    class below derives from [Exception], so [except Exception] catches
    all of them. *)
Inductive exn_class :=
| AttributeError
| TypeError
| RuntimeError
| ImportError
| OSError
| UnicodeDecodeError
| OtherException.

Record exn := Exn { exn_type : exn_class; exn_str : string }.

(** How a call ends: it returns a value, or it raises. *)
Inductive outcome (A : Type) :=
| Returns (a : A)
| Raises (e : exn).
Arguments Returns {A} a.
Arguments Raises {A} e.

(** An instance attribute: bound to a value, or not there (never
    assigned, or removed by [del]); reading it then raises
    [AttributeError]. *)
Inductive attribute (A : Type) :=
| Unbound
| Bound (a : A).
Arguments Unbound {A}.
Arguments Bound {A} a.

(** [x or y] on strings and on optional strings ([None] and the empty
    string are falsy). *)
Definition str_or (x y : string) : string :=
  if decide (x = EmptyString) then y else x.

Definition opt_str_or (x : option string) (y : string) : string :=
  match x with
  | None => y
  | Some s => str_or s y
  end.

(** [str(b)] and [str(n)], as an f-string renders them. *)
Definition str_of_bool (b : bool) : string :=
  if b then "True" else "False".

Definition str_of_int (n : Z) : string := pretty n.

Definition newline : string := String "010"%char EmptyString.

(** ["\n".join(lines)] *)
Definition join_lines (lines : list string) : string :=
  String.concat newline lines.

(** [s.split("\n")]: the lines of a text. *)
Fixpoint split_lines (s : string) : list string :=
  match s with
  | EmptyString => [EmptyString]
  | String c rest =>
      if Ascii.eqb c "010" then EmptyString :: split_lines rest
      else
        match split_lines rest with
        | line :: lines => String c line :: lines
        | [] => [String c EmptyString]
        end
  end.

(** [re.search(r"^version=(.+)$", content, re.MULTILINE)], returning
    [group(1)].  The search tries every position from the left; [^]
    holds at the start of the text and after a newline, [.+] takes the
    longest non-empty run of characters other than newline, after
    which [$] holds. *)
Fixpoint strip_prefix (p s : string) : option string :=
  match p with
  | EmptyString => Some s
  | String a p' =>
      match s with
      | EmptyString => None
      | String b s' => if Ascii.eqb a b then strip_prefix p' s' else None
      end
  end.

Fixpoint take_line (s : string) : string :=
  match s with
  | EmptyString => EmptyString
  | String c rest =>
      if Ascii.eqb c "010" then EmptyString else String c (take_line rest)
  end.

Definition match_version_here (s : string) : option string :=
  match strip_prefix "version=" s with
  | None => None
  | Some rest =>
      match take_line rest with
      | EmptyString => None
      | group => Some group
      end
  end.

Fixpoint search_version (at_line_start : bool) (s : string)
    : option string :=
  match (if at_line_start then match_version_here s else None) with
  | Some group => Some group
  | None =>
      match s with
      | EmptyString => None
      | String c rest => search_version (Ascii.eqb c "010") rest
      end
  end.

Definition re_search_version (content : string) : option string :=
  search_version true content.

Fixpoint no_newline (s : string) : bool :=
  match s with
  | EmptyString => true
  | String c rest => negb (Ascii.eqb c "010") && no_newline rest
  end.

(** [str.strip()].  A Python string is represented by its UTF-8
    encoding, one [ascii] per byte, so a character that [str.isspace]
    accepts is a sequence of one, two or three bytes: U+0009..U+000D,
    U+001C..U+0020, U+0085, U+00A0, U+1680, U+2000..U+200A, U+2028,
    U+2029, U+202F, U+205F and U+3000. *)
Definition utf8 (bytes : list nat) : string :=
  foldr (λ b s, String (ascii_of_nat b) s) EmptyString bytes.

Definition whitespace : list string :=
  utf8 <$>
    [ [9]; [10]; [11]; [12]; [13]; [28]; [29]; [30]; [31]; [32];
      [194; 133]; [194; 160]; [225; 154; 128];
      [226; 128; 128]; [226; 128; 129]; [226; 128; 130]; [226; 128; 131];
      [226; 128; 132]; [226; 128; 133]; [226; 128; 134]; [226; 128; 135];
      [226; 128; 136]; [226; 128; 137]; [226; 128; 138];
      [226; 128; 168]; [226; 128; 169]; [226; 128; 175]; [226; 129; 159];
      [227; 128; 128] ]%nat.

(** One leading element of [ws] removed, if there is one. *)
Fixpoint strip_one (ws : list string) (s : string) : option string :=
  match ws with
  | [] => None
  | w :: ws =>
      match strip_prefix w s with
      | Some rest => Some rest
      | None => strip_one ws s
      end
  end.

(** Leading elements of [ws] removed, at most [fuel] of them. *)
Fixpoint lstrip_with (ws : list string) (fuel : nat) (s : string) : string :=
  match fuel with
  | O => s
  | S fuel =>
      match strip_one ws s with
      | Some rest => lstrip_with ws fuel rest
      | None => s
      end
  end.

Definition lstrip (s : string) : string :=
  lstrip_with whitespace (String.length s) s.

Definition rstrip (s : string) : string :=
  String.rev
    (lstrip_with (String.rev <$> whitespace) (String.length s) (String.rev s)).

Definition strip (s : string) : string := rstrip (lstrip s).

(** A string made of whitespace characters only, and a string with a
    whitespace character at its start or at its end. *)
Definition whitespace_only (s : string) : Prop :=
  ∃ parts, Forall (λ w, w ∈ whitespace) parts ∧
           s = foldr String.append EmptyString parts.

Definition starts_with_whitespace (s : string) : Prop :=
  ∃ w rest, w ∈ whitespace ∧ s = w +:+ rest.

Definition ends_with_whitespace (s : string) : Prop :=
  ∃ w rest, w ∈ whitespace ∧ s = rest +:+ w.

(** [os.path.join(a, b)] for a relative [b] (POSIX separator). *)
Definition path_join (a b : string) : string :=
  if decide (a = EmptyString) then b
  else if String.eqb (substring (String.length a - 1) 1 a) "/" then a +:+ b
  else a +:+ "/" +:+ b.

End Py.

(** ** Widgets: the part of their behaviour the plugin relies on *)

Module Qt.

Record QLabel := { text : string; styleSheet : string }.

(** [QSpinBox.setValue] keeps the value inside the range given to
    [setRange]. *)
Definition QSpinBox_setValue (lo hi v : Z) : Z := Z.max lo (Z.min hi v).

(** [QComboBox.setCurrentIndex] on a box with [count] items: an index
    outside [0 .. count-1] leaves the box without a current item. *)
Definition QComboBox_setCurrentIndex (count i : Z) : Z :=
  if decide (0 <= i < count) then i else -1.

(** [QDoubleSpinBox] with [setDecimals(2)]: a value is rounded to two
    decimals, then kept inside the range.  Doubles are represented by
    exact rationals; a value of the box is always of the form [c # 100]. *)
Definition round2 (q : Q) : Q := Qfloor (q * 100 + (1 # 2)) # 100.

Definition QDoubleSpinBox_setValue (lo hi v : Q) : Q :=
  let lo := round2 lo in
  let hi := round2 hi in
  let v := round2 v in
  if Qle_bool v lo then lo else if Qle_bool hi v then hi else v.

(** A combo box with item data: the items as (text, userData) pairs and
    the current index, [-1] when there is no current item. *)
Record QComboBox := {
  items : list (string * option string);
  currentIndex : Z
}.

Definition clear (box : QComboBox) : QComboBox :=
  {| items := []; currentIndex := -1 |}.

(** [addItem] appends; the first item put into an empty box becomes the
    current one. *)
Definition addItem (label : string) (userData : option string)
    (box : QComboBox) : QComboBox :=
  {| items := items box ++ [(label, userData)];
     currentIndex :=
       match items box with
       | [] => 0
       | _ :: _ => currentIndex box
       end |}.

(** [currentData()]: the userData of the current item, [None] without
    one. *)
Definition currentData (box : QComboBox) : option string :=
  if decide (0 <= currentIndex box) then
    match items box !! Z.to_nat (currentIndex box) with
    | Some (_, userData) => userData
    | None => None
    end
  else None.

(** A signal connection owned by one receiver: [disconnect] raises
    [TypeError] when the slot is not connected. *)
Definition disconnect (connected : bool) : Py.outcome bool :=
  if connected then Py.Returns false
  else Py.Raises (Py.Exn Py.TypeError "disconnect() failed").

(** The answer to a yes/no [QMessageBox.question]. *)
Inductive StandardButton := Yes | No.

(** The message boxes of [QMessageBox], by the static function that
    shows them. *)
Inductive dialog :=
| Critical (title body : string)
| Warning (title body : string)
| About (title body : string)
| Question (title body : string).

(** [setCurrentIndex] on a combo box with its items: the user (or the
    code) picks entry [i]. *)
Definition setCurrentIndex (i : Z) (box : QComboBox) : QComboBox :=
  {| items := items box;
     currentIndex :=
       QComboBox_setCurrentIndex (Z.of_nat (List.length (items box))) i |}.

End Qt.

(** ** The host: preference store, layer registry, main window *)

Module Qgis.

(** *** QSettings *)

(** A stored value keeps the type it was written with. *)
Inductive QVariant :=
| VBool (b : bool)
| VInt (n : Z)
| VDouble (q : Q)
| VString (s : string).

(** [QSettings.value(key, default, type=T)] converts what it finds.  A
    value written with type [T] is returned as it is; what the
    conversion makes of a value of another type is the toolkit's
    business and is left open here.  The call itself can raise
    [TypeError] when a value does not convert, and [type=int] returns a
    C [int]: the functions below describe it on the stores where
    neither matters, those whose values have the requested type and
    whose integers fit a C [int] ([SettingsDock.well_typed]). *)
Class Conversion := {
  to_bool : QVariant → bool;
  to_int : QVariant → Z;
  to_float : QVariant → Q;
  to_str : QVariant → string
}.

Definition setValue (key : string) (v : QVariant)
    (settings : gmap string QVariant) : gmap string QVariant :=
  <[key := v]> settings.

(** [sync()] flushes to permanent storage; the key/value content is
    unchanged. *)
Definition sync (settings : gmap string QVariant) : gmap string QVariant :=
  settings.

(** One possible conversion: a value of another type converts to the
    default-constructed value of the requested type. *)
Definition default_constructed : Conversion :=
  {| to_bool := λ _, false;
     to_int := λ _, 0;
     to_float := λ _, 0%Q;
     to_str := λ _, EmptyString |}.

Section Value.
Context `{Conversion}.

Definition value_bool (settings : gmap string QVariant) (key : string)
    (default : bool) : bool :=
  match settings !! key with
  | None => default
  | Some (VBool b) => b
  | Some v => to_bool v
  end.

Definition value_int (settings : gmap string QVariant) (key : string)
    (default : Z) : Z :=
  match settings !! key with
  | None => default
  | Some (VInt n) => n
  | Some v => to_int v
  end.

Definition value_float (settings : gmap string QVariant) (key : string)
    (default : Q) : Q :=
  match settings !! key with
  | None => default
  | Some (VDouble q) => q
  | Some v => to_float v
  end.

Definition value_str (settings : gmap string QVariant) (key : string)
    (default : string) : string :=
  match settings !! key with
  | None => default
  | Some (VString s) => s
  | Some v => to_str v
  end.
End Value.

(** *** QgsProject: the loaded layers, in the order [mapLayers()] yields
    them. *)
Record QgsMapLayer := { id : string; name : string }.

(** *** The interface object handed to the plugin, with what the
    plugin has put into the main window so far. *)
Record QgisInterface := {
  message_bar : list (string * string);   (* pushSuccess(title, text) *)
  dialogs : list Qt.dialog;               (* message boxes shown *)
  menu_bar : list string;                 (* menus added to the menu bar *)
  tool_bars : list string;                (* toolbars, by object name *)
  dock_widgets : list string;             (* docks, by object name *)
  plugin_menu_removals : list (string * nat)
                                          (* removePluginMenu(menu, action) *)
}.

Definition pushSuccess (title body : string) (iface : QgisInterface)
    : QgisInterface :=
  {| message_bar := message_bar iface ++ [(title, body)];
     dialogs := dialogs iface;
     menu_bar := menu_bar iface;
     tool_bars := tool_bars iface;
     dock_widgets := dock_widgets iface;
     plugin_menu_removals := plugin_menu_removals iface |}.

Definition show_dialog (d : Qt.dialog) (iface : QgisInterface)
    : QgisInterface :=
  {| message_bar := message_bar iface;
     dialogs := dialogs iface ++ [d];
     menu_bar := menu_bar iface;
     tool_bars := tool_bars iface;
     dock_widgets := dock_widgets iface;
     plugin_menu_removals := plugin_menu_removals iface |}.

End Qgis.

(** ** settings_dock.py *)

Module SettingsDock.
Import Qt Qgis.

Definition SETTINGS_PREFIX : string := "PluginTemplate/".

(** [f"{self.SETTINGS_PREFIX}name"] *)
Definition key (name : string) : string := SETTINGS_PREFIX +:+ name.

(** The fifteen input widgets, by the value each one holds, and the
    status label. *)
Record SettingsDockWidget := {
  auto_load_check : bool;
  notifications_check : bool;
  default_action_combo : Z;
  language_combo : Z;
  theme_combo : Z;
  font_size_spin : Z;
  max_threads_spin : Z;
  chunk_size_spin : Z;
  memory_limit_spin : Z;
  tolerance_spin : Q;
  debug_check : bool;
  log_level_combo : Z;
  output_dir_input : string;
  temp_dir_input : string;
  models_dir_input : string;
  status_label : QLabel
}.

(** Item counts and ranges fixed by [_create_general_tab] and
    [_create_advanced_tab]. *)
Definition default_action_count : Z := 3.
Definition language_count : Z := 5.
Definition theme_count : Z := 3.
Definition log_level_count : Z := 4.

Definition set_font_size := QSpinBox_setValue 8 24.
Definition set_max_threads := QSpinBox_setValue 1 32.
Definition set_chunk_size := QSpinBox_setValue 256 4096.
Definition set_memory_limit := QSpinBox_setValue 256 16384.
Definition set_tolerance := QDoubleSpinBox_setValue 0 10.

(** [_setup_ui]: the widgets as the three tab builders leave them.  A
    combo box filled by [addItems] shows its first item. *)
Definition _setup_ui : SettingsDockWidget :=
  {| auto_load_check := true;
     notifications_check := true;
     default_action_combo := 0;
     language_combo := 0;
     theme_combo := 0;
     font_size_spin := set_font_size 10;
     max_threads_spin := set_max_threads 4;
     chunk_size_spin := set_chunk_size 512;
     memory_limit_spin := set_memory_limit 4096;
     tolerance_spin := set_tolerance (1 # 2);
     debug_check := false;
     log_level_combo := QComboBox_setCurrentIndex log_level_count 2;
     output_dir_input := EmptyString;
     temp_dir_input := EmptyString;
     models_dir_input := EmptyString;
     status_label :=
       {| text := "Settings loaded";
          styleSheet := "color: gray; font-size: 10px;" |} |}.

Section Load.
Context `{Conversion}.

(** [_load_settings]: every widget is set from the store, with the
    default given at the call. *)
Definition _load_settings (self : SettingsDockWidget)
    (settings : gmap string QVariant) : SettingsDockWidget :=
  {| auto_load_check := value_bool settings (key "auto_load") true;
     notifications_check :=
       value_bool settings (key "notifications") true;
     default_action_combo :=
       QComboBox_setCurrentIndex default_action_count
         (value_int settings (key "default_action") 0);
     language_combo :=
       QComboBox_setCurrentIndex language_count
         (value_int settings (key "language") 0);
     theme_combo :=
       QComboBox_setCurrentIndex theme_count
         (value_int settings (key "theme") 0);
     font_size_spin :=
       set_font_size (value_int settings (key "font_size") 10);
     max_threads_spin :=
       set_max_threads (value_int settings (key "max_threads") 4);
     chunk_size_spin :=
       set_chunk_size (value_int settings (key "chunk_size") 512);
     memory_limit_spin :=
       set_memory_limit (value_int settings (key "memory_limit") 4096);
     tolerance_spin :=
       set_tolerance (value_float settings (key "tolerance") (1 # 2));
     debug_check := value_bool settings (key "debug") false;
     log_level_combo :=
       QComboBox_setCurrentIndex log_level_count
         (value_int settings (key "log_level") 2);
     output_dir_input :=
       value_str settings (key "output_dir") EmptyString;
     temp_dir_input := value_str settings (key "temp_dir") EmptyString;
     models_dir_input :=
       value_str settings (key "models_dir") EmptyString;
     status_label :=
       {| text := "Settings loaded";
          styleSheet := "color: gray; font-size: 10px;" |} |}.

(** [__init__]: build the widgets, then load. *)
Definition __init__ (settings : gmap string QVariant)
    : SettingsDockWidget :=
  _load_settings _setup_ui settings.
End Load.

Definition set_status (t s : string) (self : SettingsDockWidget)
    : SettingsDockWidget :=
  {| auto_load_check := auto_load_check self;
     notifications_check := notifications_check self;
     default_action_combo := default_action_combo self;
     language_combo := language_combo self;
     theme_combo := theme_combo self;
     font_size_spin := font_size_spin self;
     max_threads_spin := max_threads_spin self;
     chunk_size_spin := chunk_size_spin self;
     memory_limit_spin := memory_limit_spin self;
     tolerance_spin := tolerance_spin self;
     debug_check := debug_check self;
     log_level_combo := log_level_combo self;
     output_dir_input := output_dir_input self;
     temp_dir_input := temp_dir_input self;
     models_dir_input := models_dir_input self;
     status_label := {| text := t; styleSheet := s |} |}.

(** The fifteen [setValue] calls of [_save_settings], in source order. *)
Definition write_all (self : SettingsDockWidget)
    (settings : gmap string QVariant) : gmap string QVariant :=
  let settings :=
    setValue (key "auto_load") (VBool (auto_load_check self)) settings in
  let settings :=
    setValue (key "notifications") (VBool (notifications_check self))
      settings in
  let settings :=
    setValue (key "default_action") (VInt (default_action_combo self))
      settings in
  let settings :=
    setValue (key "language") (VInt (language_combo self)) settings in
  let settings :=
    setValue (key "theme") (VInt (theme_combo self)) settings in
  let settings :=
    setValue (key "font_size") (VInt (font_size_spin self)) settings in
  let settings :=
    setValue (key "max_threads") (VInt (max_threads_spin self)) settings in
  let settings :=
    setValue (key "chunk_size") (VInt (chunk_size_spin self)) settings in
  let settings :=
    setValue (key "memory_limit") (VInt (memory_limit_spin self))
      settings in
  let settings :=
    setValue (key "tolerance") (VDouble (tolerance_spin self)) settings in
  let settings :=
    setValue (key "debug") (VBool (debug_check self)) settings in
  let settings :=
    setValue (key "log_level") (VInt (log_level_combo self)) settings in
  let settings :=
    setValue (key "output_dir") (VString (output_dir_input self))
      settings in
  let settings :=
    setValue (key "temp_dir") (VString (temp_dir_input self)) settings in
  setValue (key "models_dir") (VString (models_dir_input self)) settings.

(** [_save_settings]: write, sync, report. *)
Definition _save_settings (self : SettingsDockWidget)
    (settings : gmap string QVariant) (iface : QgisInterface)
    : SettingsDockWidget * gmap string QVariant * QgisInterface :=
  let settings := sync (write_all self settings) in
  let self :=
    set_status "Settings saved" "color: green; font-size: 10px;" self in
  (self, settings,
   pushSuccess "Plugin Template" "Settings saved successfully!" iface).

(** [_reset_defaults]: [reply] is the button the user pressed in the
    confirmation box. *)
Definition _reset_defaults (reply : StandardButton)
    (self : SettingsDockWidget) (settings : gmap string QVariant)
    (iface : QgisInterface)
    : SettingsDockWidget * gmap string QVariant * QgisInterface :=
  let iface :=
    show_dialog
      (Question "Reset Settings"
         "Are you sure you want to reset all settings to defaults?")
      iface in
  match reply with
  | No => (self, settings, iface)
  | Yes =>
      ({| auto_load_check := true;
          notifications_check := true;
          default_action_combo :=
            QComboBox_setCurrentIndex default_action_count 0;
          language_combo := QComboBox_setCurrentIndex language_count 0;
          theme_combo := QComboBox_setCurrentIndex theme_count 0;
          font_size_spin := set_font_size 10;
          max_threads_spin := set_max_threads 4;
          chunk_size_spin := set_chunk_size 512;
          memory_limit_spin := set_memory_limit 4096;
          tolerance_spin := set_tolerance (1 # 2);
          debug_check := false;
          log_level_combo := QComboBox_setCurrentIndex log_level_count 2;
          output_dir_input := EmptyString;
          temp_dir_input := EmptyString;
          models_dir_input := EmptyString;
          status_label :=
            {| text := "Defaults restored (not saved)";
               styleSheet := "color: orange; font-size: 10px;" |} |},
       settings, iface)
  end.

(** [_browse_directory]: [picked] is what the directory picker returned
    (the empty string when the user cancelled). *)
Definition _browse_directory (picked current : string) : string :=
  if decide (picked = EmptyString) then current else picked.

(** The values of the fifteen fields, without the status label. *)
Definition fields (self : SettingsDockWidget) :=
  (auto_load_check self, notifications_check self,
   default_action_combo self, language_combo self, theme_combo self,
   font_size_spin self, max_threads_spin self, chunk_size_spin self,
   memory_limit_spin self, tolerance_spin self, debug_check self,
   log_level_combo self, output_dir_input self, temp_dir_input self,
   models_dir_input self).

(** The states the widgets can be in: a spin box holds a value of its
    range, the tolerance box a two-decimal value of [0, 10], a combo box
    an index of one of its items or [-1]. *)
Definition in_range (self : SettingsDockWidget) : Prop :=
  -1 <= default_action_combo self < default_action_count ∧
  -1 <= language_combo self < language_count ∧
  -1 <= theme_combo self < theme_count ∧
  8 <= font_size_spin self <= 24 ∧
  1 <= max_threads_spin self <= 32 ∧
  256 <= chunk_size_spin self <= 4096 ∧
  256 <= memory_limit_spin self <= 16384 ∧
  (∃ c : Z, 0 <= c <= 1000 ∧ tolerance_spin self = (c # 100)%Q) ∧
  -1 <= log_level_combo self < log_level_count.

(** A panel in which the user has set chunk size 1024 and memory limit
    8192 and left the rest as built. *)
Definition panel_1024_8192 : SettingsDockWidget :=
  {| auto_load_check := true;
     notifications_check := true;
     default_action_combo := 0;
     language_combo := 0;
     theme_combo := 0;
     font_size_spin := 10;
     max_threads_spin := 4;
     chunk_size_spin := set_chunk_size 1024;
     memory_limit_spin := set_memory_limit 8192;
     tolerance_spin := set_tolerance (1 # 2);
     debug_check := false;
     log_level_combo := 2;
     output_dir_input := EmptyString;
     temp_dir_input := EmptyString;
     models_dir_input := EmptyString;
     status_label :=
       {| text := "Settings loaded";
          styleSheet := "color: gray; font-size: 10px;" |} |}.

(** The names [_load_settings] and [_save_settings] use after the
    prefix, in source order. *)
Definition setting_names : list string :=
  [ "auto_load"; "notifications"; "default_action"; "language"; "theme";
    "font_size"; "max_threads"; "chunk_size"; "memory_limit"; "tolerance";
    "debug"; "log_level"; "output_dir"; "temp_dir"; "models_dir" ].

(** A store whose values under the panel's keys, where there are any,
    have the type the panel writes there, with integers that fit a C
    [int]: loading from such a store converts nothing and cannot raise. *)
Definition is_bool (v : QVariant) : Prop :=
  match v with VBool _ => True | _ => False end.

Definition is_int (v : QVariant) : Prop :=
  match v with
  | VInt n => -2147483648 <= n <= 2147483647
  | _ => False
  end.

Definition is_float (v : QVariant) : Prop :=
  match v with VDouble _ => True | _ => False end.

Definition is_str (v : QVariant) : Prop :=
  match v with VString _ => True | _ => False end.

Definition typed (ok : QVariant → Prop) (settings : gmap string QVariant)
    (name : string) : Prop :=
  match settings !! key name with
  | Some v => ok v
  | None => True
  end.

Definition well_typed (settings : gmap string QVariant) : Prop :=
  typed is_bool settings "auto_load" ∧
  typed is_bool settings "notifications" ∧
  typed is_int settings "default_action" ∧
  typed is_int settings "language" ∧
  typed is_int settings "theme" ∧
  typed is_int settings "font_size" ∧
  typed is_int settings "max_threads" ∧
  typed is_int settings "chunk_size" ∧
  typed is_int settings "memory_limit" ∧
  typed is_float settings "tolerance" ∧
  typed is_bool settings "debug" ∧
  typed is_int settings "log_level" ∧
  typed is_str settings "output_dir" ∧
  typed is_str settings "temp_dir" ∧
  typed is_str settings "models_dir".

(** A store in which an earlier version left a chunk size and a theme
    index that the widgets do not allow. *)
Definition store_out_of_range : gmap string QVariant :=
  {[ key "chunk_size" := VInt 999999; key "theme" := VInt 7 ]}.

End SettingsDock.

(** ** sample_dock.py *)

Module SampleDock.
Import Py Qt Qgis.

Record SampleDockWidget := {
  layer_combo : QComboBox;
  text_input : string;
  number_spin : Z;
  option_check : bool;
  file_input : string;
  output_text : string;
  progress_visible : bool;
  progress_value : Z;
  status_label : QLabel;
  (* the two connections made at the end of [_setup_ui] *)
  layersAdded_connected : bool;
  layersRemoved_connected : bool
}.

Definition set_layer_combo (box : QComboBox) (self : SampleDockWidget) :=
  {| layer_combo := box;
     text_input := text_input self;
     number_spin := number_spin self;
     option_check := option_check self;
     file_input := file_input self;
     output_text := output_text self;
     progress_visible := progress_visible self;
     progress_value := progress_value self;
     status_label := status_label self;
     layersAdded_connected := layersAdded_connected self;
     layersRemoved_connected := layersRemoved_connected self |}.

Definition set_inputs (t : string) (n : Z) (o : bool) (f : string)
    (self : SampleDockWidget) :=
  {| layer_combo := layer_combo self;
     text_input := t;
     number_spin := n;
     option_check := o;
     file_input := f;
     output_text := output_text self;
     progress_visible := progress_visible self;
     progress_value := progress_value self;
     status_label := status_label self;
     layersAdded_connected := layersAdded_connected self;
     layersRemoved_connected := layersRemoved_connected self |}.

Definition set_output (out : string) (self : SampleDockWidget) :=
  {| layer_combo := layer_combo self;
     text_input := text_input self;
     number_spin := number_spin self;
     option_check := option_check self;
     file_input := file_input self;
     output_text := out;
     progress_visible := progress_visible self;
     progress_value := progress_value self;
     status_label := status_label self;
     layersAdded_connected := layersAdded_connected self;
     layersRemoved_connected := layersRemoved_connected self |}.

Definition set_progress (vis : bool) (v : Z) (self : SampleDockWidget) :=
  {| layer_combo := layer_combo self;
     text_input := text_input self;
     number_spin := number_spin self;
     option_check := option_check self;
     file_input := file_input self;
     output_text := output_text self;
     progress_visible := vis;
     progress_value := v;
     status_label := status_label self;
     layersAdded_connected := layersAdded_connected self;
     layersRemoved_connected := layersRemoved_connected self |}.

Definition set_status (t s : string) (self : SampleDockWidget) :=
  {| layer_combo := layer_combo self;
     text_input := text_input self;
     number_spin := number_spin self;
     option_check := option_check self;
     file_input := file_input self;
     output_text := output_text self;
     progress_visible := progress_visible self;
     progress_value := progress_value self;
     status_label := {| text := t; styleSheet := s |};
     layersAdded_connected := layersAdded_connected self;
     layersRemoved_connected := layersRemoved_connected self |}.

Definition set_connections (added removed : bool)
    (self : SampleDockWidget) :=
  {| layer_combo := layer_combo self;
     text_input := text_input self;
     number_spin := number_spin self;
     option_check := option_check self;
     file_input := file_input self;
     output_text := output_text self;
     progress_visible := progress_visible self;
     progress_value := progress_value self;
     status_label := status_label self;
     layersAdded_connected := added;
     layersRemoved_connected := removed |}.

Definition sentinel : string * option string :=
  ("-- Select a layer --", None).

Definition layer_item (layer : QgsMapLayer) : string * option string :=
  (name layer, Some (id layer)).

(** [_populate_layers]: [project] is what
    [QgsProject.instance().mapLayers().values()] yields at the call. *)
Definition _populate_layers (project : list QgsMapLayer)
    (self : SampleDockWidget) : SampleDockWidget :=
  let box := clear (layer_combo self) in
  let box := addItem sentinel.1 sentinel.2 box in
  let box :=
    foldl (λ box layer, addItem (name layer) (Some (id layer)) box)
      box project in
  set_layer_combo box self.

Definition set_number := QSpinBox_setValue 0 1000.

(** [_setup_ui]: the widgets in the order they are built; the combo box
    is filled while it is built and the two project signals are
    connected last. *)
Definition _setup_ui (project : list QgsMapLayer) : SampleDockWidget :=
  let self :=
    {| layer_combo := {| items := []; currentIndex := -1 |};
       text_input := EmptyString;
       number_spin := set_number 100;
       option_check := true;
       file_input := EmptyString;
       output_text := EmptyString;
       progress_visible := false;
       progress_value := -1;
       status_label :=
         {| text := "Ready"; styleSheet := "color: gray; font-size: 10px;" |};
       layersAdded_connected := false;
       layersRemoved_connected := false |} in
  let self := _populate_layers project self in
  set_connections true true self.

Definition __init__ (project : list QgsMapLayer) : SampleDockWidget :=
  _setup_ui project.

(** The project emits [layersAdded] or [layersRemoved] after its layer
    collection has changed to [project]; a connected panel rebuilds. *)
Definition layersAdded (project : list QgsMapLayer)
    (self : SampleDockWidget) : SampleDockWidget :=
  if layersAdded_connected self then _populate_layers project self
  else self.

Definition layersRemoved (project : list QgsMapLayer)
    (self : SampleDockWidget) : SampleDockWidget :=
  if layersRemoved_connected self then _populate_layers project self
  else self.

(** [_browse_file]: [file_path] is what the file picker returned (empty
    when the user cancelled). *)
Definition _browse_file (file_path : string) (self : SampleDockWidget) :=
  if decide (file_path = EmptyString) then self
  else set_inputs (text_input self) (number_spin self) (option_check self)
         file_path self.

(** The [output_lines] list of [_run_action]. *)
Definition output_lines (layer_id : option string) (text : string)
    (number : Z) (option : bool) (file_path : string) : list string :=
  [ "=== Sample Action Results ===";
    EmptyString;
    "Selected Layer ID: " +:+ opt_str_or layer_id "None";
    "Text Input: " +:+ str_or text "(empty)";
    "Number Value: " +:+ str_of_int number;
    "Option Enabled: " +:+ str_of_bool option;
    "File Path: " +:+ str_or file_path "(none)";
    EmptyString;
    "Action completed successfully!" ].

(** The first half of [_run_action], up to the simulated processing:
    the state the panel is in while the action runs. *)
Definition processing (self : SampleDockWidget) : SampleDockWidget :=
  let self := set_progress true (progress_value self) self in
  let self := set_progress (progress_visible self) 0 self in
  let self :=
    set_status "Processing..." "color: blue; font-size: 10px;" self in
  set_progress (progress_visible self) 50 self.

Definition _run_action (self : SampleDockWidget) (iface : QgisInterface)
    : SampleDockWidget * QgisInterface :=
  let layer_id := currentData (layer_combo self) in
  let text := text_input self in
  let number := number_spin self in
  let option := option_check self in
  let file_path := file_input self in
  let self := processing self in
  let self :=
    set_output (join_lines (output_lines layer_id text number option file_path))
      self in
  let self := set_progress (progress_visible self) 100 self in
  let self := set_progress false (progress_value self) self in
  let self := set_status "Completed" "color: green; font-size: 10px;" self in
  (self,
   pushSuccess "Plugin Template" "Sample action completed successfully!"
     iface).

Definition _clear_output (self : SampleDockWidget) : SampleDockWidget :=
  set_status "Ready" "color: gray; font-size: 10px;"
    (set_output EmptyString self).

(** [closeEvent]: both disconnections sit in one [try]; [RuntimeError]
    and [TypeError] are swallowed, anything else propagates before the
    event is accepted.  The result says how the call ended, what the
    panel's connections are, and whether the event was accepted. *)
Definition closeEvent (self : SampleDockWidget)
    : outcome unit * SampleDockWidget * bool :=
  let '(tried, self) :=
    match disconnect (layersAdded_connected self) with
    | Raises e => (Raises e, self)
    | Returns added =>
        let self := set_connections added (layersRemoved_connected self) self in
        match disconnect (layersRemoved_connected self) with
        | Raises e => (Raises e, self)
        | Returns removed =>
            (Returns tt,
             set_connections (layersAdded_connected self) removed self)
        end
    end in
  match tried with
  | Raises (Exn RuntimeError _) | Raises (Exn TypeError _) | Returns _ =>
      (Returns tt, self, true)
  | Raises e => (Raises e, self, false)
  end.

(** The panel of the scenario: built with no layers loaded, then text
    "abc", number 42 and the option checked. *)
Definition panel_abc_42 : SampleDockWidget :=
  set_inputs "abc" (set_number 42) true EmptyString (__init__ []).

(** The user picks entry [i] of the layer combo box. *)
Definition select_layer (i : Z) (self : SampleDockWidget) : SampleDockWidget :=
  set_layer_combo (setCurrentIndex i (layer_combo self)) self.

End SampleDock.

(** ** plugin_template.py *)

Module Plugin.
Import Py Qt Qgis.

(** The bound methods that [initGui] hands to [add_action]. *)
Inductive callback :=
| cb_toggle_sample_dock
| cb_toggle_settings_dock
| cb_show_update_checker
| cb_show_about.

Record QAction := {
  icon : string;
  label : string;
  triggered : callback;
  enabled : bool;
  checkable : bool;
  checked : bool;
  statusTip : option string
}.

(** [QAction.setChecked]: ignored by an action that is not checkable. *)
Definition setChecked (b : bool) (a : QAction) : QAction :=
  {| icon := icon a;
     label := label a;
     triggered := triggered a;
     enabled := enabled a;
     checkable := checkable a;
     checked := if checkable a then b else checked a;
     statusTip := statusTip a |}.

(** Menus and toolbars hold references to actions: positions in the
    plugin's [actions] list, where the action objects live. *)
Inductive menu_entry :=
| ActionEntry (ref : nat)
| Separator.

Record QMenu := {
  menu_title : string;
  menu_entries : list menu_entry;
  menu_deleteLater : bool
}.

Record QToolBar := {
  toolbar_title : string;
  toolbar_objectName : string;
  toolbar_actions : list nat
}.

(** A dock widget as the controller sees it: the panel inside, its
    object name, whether it is shown, and whether its
    [visibilityChanged] signal is connected to the controller. *)
Record Dock (W : Type) := {
  widget : W;
  objectName : string;
  visible : bool;
  visibilityChanged_connected : bool
}.
Arguments widget {W} _.
Arguments objectName {W} _.
Arguments visible {W} _.
Arguments visibilityChanged_connected {W} _.

Definition set_visible {W} (v : bool) (d : Dock W) : Dock W :=
  {| widget := widget d;
     objectName := objectName d;
     visible := v;
     visibilityChanged_connected := visibilityChanged_connected d |}.

Definition set_objectName {W} (n : string) (d : Dock W) : Dock W :=
  {| widget := widget d;
     objectName := n;
     visible := visible d;
     visibilityChanged_connected := visibilityChanged_connected d |}.

Definition connect_visibilityChanged {W} (d : Dock W) : Dock W :=
  {| widget := widget d;
     objectName := objectName d;
     visible := visible d;
     visibilityChanged_connected := true |}.

Record PluginTemplate := {
  iface : QgisInterface;
  plugin_dir : string;
  actions : list QAction;
  menu : option QMenu;
  toolbar : attribute (option QToolBar);
  _sample_dock : option (Dock SampleDock.SampleDockWidget);
  _settings_dock : option (Dock SettingsDock.SettingsDockWidget);
  (* references into [actions], bound by [initGui] *)
  sample_action : attribute nat;
  settings_action : attribute nat
}.

Definition __init__ (iface : QgisInterface) (plugin_dir : string)
    : PluginTemplate :=
  {| iface := iface;
     plugin_dir := plugin_dir;
     actions := [];
     menu := None;
     toolbar := Bound None;
     _sample_dock := None;
     _settings_dock := None;
     sample_action := Unbound;
     settings_action := Unbound |}.

Definition set_iface (i : QgisInterface) (self : PluginTemplate) :=
  {| iface := i;
     plugin_dir := plugin_dir self;
     actions := actions self;
     menu := menu self;
     toolbar := toolbar self;
     _sample_dock := _sample_dock self;
     _settings_dock := _settings_dock self;
     sample_action := sample_action self;
     settings_action := settings_action self |}.

Definition set_actions (l : list QAction) (self : PluginTemplate) :=
  {| iface := iface self;
     plugin_dir := plugin_dir self;
     actions := l;
     menu := menu self;
     toolbar := toolbar self;
     _sample_dock := _sample_dock self;
     _settings_dock := _settings_dock self;
     sample_action := sample_action self;
     settings_action := settings_action self |}.

Definition set_menu (m : option QMenu) (self : PluginTemplate) :=
  {| iface := iface self;
     plugin_dir := plugin_dir self;
     actions := actions self;
     menu := m;
     toolbar := toolbar self;
     _sample_dock := _sample_dock self;
     _settings_dock := _settings_dock self;
     sample_action := sample_action self;
     settings_action := settings_action self |}.

Definition set_toolbar (t : attribute (option QToolBar))
    (self : PluginTemplate) :=
  {| iface := iface self;
     plugin_dir := plugin_dir self;
     actions := actions self;
     menu := menu self;
     toolbar := t;
     _sample_dock := _sample_dock self;
     _settings_dock := _settings_dock self;
     sample_action := sample_action self;
     settings_action := settings_action self |}.

Definition set_sample_dock (d : option (Dock SampleDock.SampleDockWidget))
    (self : PluginTemplate) :=
  {| iface := iface self;
     plugin_dir := plugin_dir self;
     actions := actions self;
     menu := menu self;
     toolbar := toolbar self;
     _sample_dock := d;
     _settings_dock := _settings_dock self;
     sample_action := sample_action self;
     settings_action := settings_action self |}.

Definition set_settings_dock
    (d : option (Dock SettingsDock.SettingsDockWidget))
    (self : PluginTemplate) :=
  {| iface := iface self;
     plugin_dir := plugin_dir self;
     actions := actions self;
     menu := menu self;
     toolbar := toolbar self;
     _sample_dock := _sample_dock self;
     _settings_dock := d;
     sample_action := sample_action self;
     settings_action := settings_action self |}.

Definition set_sample_action (r : attribute nat) (self : PluginTemplate) :=
  {| iface := iface self;
     plugin_dir := plugin_dir self;
     actions := actions self;
     menu := menu self;
     toolbar := toolbar self;
     _sample_dock := _sample_dock self;
     _settings_dock := _settings_dock self;
     sample_action := r;
     settings_action := settings_action self |}.

Definition set_settings_action (r : attribute nat)
    (self : PluginTemplate) :=
  {| iface := iface self;
     plugin_dir := plugin_dir self;
     actions := actions self;
     menu := menu self;
     toolbar := toolbar self;
     _sample_dock := _sample_dock self;
     _settings_dock := _settings_dock self;
     sample_action := sample_action self;
     settings_action := r |}.

(** *** Methods as state transformers that may raise

    A method is a function from the plugin object to an outcome and the
    object as the call leaves it: what was assigned before a [raise]
    stays assigned. *)
Definition M (A : Type) : Type := PluginTemplate → outcome A * PluginTemplate.

Definition ret {A} (a : A) : M A := λ self, (Returns a, self).

Definition raise {A} (e : exn) : M A := λ self, (Raises e, self).

Definition bind {A B} (m : M A) (k : A → M B) : M B :=
  λ self,
    match m self with
    | (Returns a, self) => k a self
    | (Raises e, self) => (Raises e, self)
    end.

Definition modify (f : PluginTemplate → PluginTemplate) : M unit :=
  λ self, (Returns tt, f self).

Definition read {A} (f : PluginTemplate → A) : M A :=
  λ self, (Returns (f self), self).

(** [try: body  except Exception as e: handler(e)] *)
Definition try_except {A} (body : M A) (handler : exn → M A) : M A :=
  λ self,
    match body self with
    | (Returns a, self) => (Returns a, self)
    | (Raises e, self) => handler e self
    end.

Notation "'let!' x ':=' m 'in' k" := (bind m (λ x, k))
  (at level 10, x name, m at level 100, k at level 200).
Notation "'do!' m 'in' k" := (bind m (λ _, k))
  (at level 10, m at level 100, k at level 200).

Definition no_attribute (obj attr : string) : exn :=
  Exn AttributeError
    ("'" +:+ obj +:+ "' object has no attribute '" +:+ attr +:+ "'").

(** Reading an attribute of [self]. *)
Definition getattr {A} (f : PluginTemplate → attribute A) (attr : string)
    : M A :=
  λ self,
    match f self with
    | Bound a => (Returns a, self)
    | Unbound => (Raises (no_attribute "PluginTemplate" attr), self)
    end.

(** *** [add_action] *)

Definition toolbar_addAction (ref : nat) : M unit :=
  let! tb := getattr toolbar "toolbar" in
  match tb with
  | None => raise (no_attribute "NoneType" "addAction")
  | Some tb =>
      modify
        (set_toolbar
           (Bound
              (Some
                 {| toolbar_title := toolbar_title tb;
                    toolbar_objectName := toolbar_objectName tb;
                    toolbar_actions := toolbar_actions tb ++ [ref] |})))
  end.

Definition menu_add (entry : menu_entry) (attr : string) : M unit :=
  let! m := read menu in
  match m with
  | None => raise (no_attribute "NoneType" attr)
  | Some m =>
      modify
        (set_menu
           (Some
              {| menu_title := menu_title m;
                 menu_entries := menu_entries m ++ [entry];
                 menu_deleteLater := menu_deleteLater m |}))
  end.

(** [add_action] returns the new action: its position in
    [self.actions], where it is appended last. *)
Definition add_action (icon_path text : string) (cb : callback)
    (enabled_flag add_to_menu add_to_toolbar : bool)
    (status_tip : option string) (is_checkable : bool) : M nat :=
  let! ref := read (λ self, List.length (actions self)) in
  let action :=
    {| icon := icon_path;
       label := text;
       triggered := cb;
       enabled := enabled_flag;
       checkable := is_checkable;
       checked := false;
       statusTip := status_tip |} in
  do! (if add_to_toolbar then toolbar_addAction ref else ret tt) in
  do! (if add_to_menu then menu_add (ActionEntry ref) "addAction" else ret tt) in
  do! modify (λ self, set_actions (actions self ++ [action]) self) in
  ret ref.

(** *** [initGui]: [exists_] answers [os.path.exists]. *)

Definition addMenu (title : string) (i : QgisInterface) : QgisInterface :=
  {| message_bar := message_bar i;
     dialogs := dialogs i;
     menu_bar := menu_bar i ++ [title];
     tool_bars := tool_bars i;
     dock_widgets := dock_widgets i;
     plugin_menu_removals := plugin_menu_removals i |}.

Definition addToolBar (name : string) (i : QgisInterface) : QgisInterface :=
  {| message_bar := message_bar i;
     dialogs := dialogs i;
     menu_bar := menu_bar i;
     tool_bars := tool_bars i ++ [name];
     dock_widgets := dock_widgets i;
     plugin_menu_removals := plugin_menu_removals i |}.

Definition icon_or (exists_ : string → bool) (path fallback : string)
    : string :=
  if exists_ path then path else fallback.

Definition initGui (exists_ : string → bool) : M unit :=
  do! modify
    (set_menu
       (Some
          {| menu_title := "&Plugin Template";
             menu_entries := [];
             menu_deleteLater := false |})) in
  do! modify (λ self, set_iface (addMenu "&Plugin Template" (iface self)) self) in
  do! modify
    (set_toolbar
       (Bound
          (Some
             {| toolbar_title := "Plugin Template Toolbar";
                toolbar_objectName := "PluginTemplateToolbar";
                toolbar_actions := [] |}))) in
  do! modify
    (λ self, set_iface (addToolBar "PluginTemplateToolbar" (iface self)) self) in
  let! icon_base := read (λ self, path_join (plugin_dir self) "icons") in
  let main_icon :=
    icon_or exists_ (path_join icon_base "icon.png")
      ":/images/themes/default/mActionAddRasterLayer.svg" in
  let settings_icon :=
    icon_or exists_ (path_join icon_base "settings.svg")
      ":/images/themes/default/mActionOptions.svg" in
  let about_icon :=
    icon_or exists_ (path_join icon_base "about.svg")
      ":/images/themes/default/mActionHelpContents.svg" in
  let! a := add_action main_icon "Sample Panel" cb_toggle_sample_dock
        true true true (Some "Toggle Sample Panel") true in
  do! modify (set_sample_action (Bound a)) in
  let! a := add_action settings_icon "Settings Panel" cb_toggle_settings_dock
        true true true (Some "Toggle Settings Panel") true in
  do! modify (set_settings_action (Bound a)) in
  do! menu_add Separator "addSeparator" in
  let update_icon := ":/images/themes/default/mActionRefresh.svg" in
  do! add_action update_icon "Check for Updates..." cb_show_update_checker
    true true false (Some "Check for plugin updates from GitHub") false in
  do! add_action about_icon "About Plugin Template" cb_show_about
    true true false (Some "About Plugin Template") false in
  ret tt.

(** *** [unload] *)

Definition removeDockWidget (name : string) (i : QgisInterface)
    : QgisInterface :=
  {| message_bar := message_bar i;
     dialogs := dialogs i;
     menu_bar := menu_bar i;
     tool_bars := tool_bars i;
     dock_widgets := filter (λ n, n ≠ name) (dock_widgets i);
     plugin_menu_removals := plugin_menu_removals i |}.

Definition removePluginMenu (menu_name : string) (ref : nat)
    (i : QgisInterface) : QgisInterface :=
  {| message_bar := message_bar i;
     dialogs := dialogs i;
     menu_bar := menu_bar i;
     tool_bars := tool_bars i;
     dock_widgets := dock_widgets i;
     plugin_menu_removals := plugin_menu_removals i ++ [(menu_name, ref)] |}.

Definition unload : M unit :=
  (* Remove dock widgets *)
  do! (let! dock := read _sample_dock in
       match dock with
       | Some d =>
           do! modify
                 (λ self,
                    set_iface (removeDockWidget (objectName d) (iface self))
                      self) in
           modify (set_sample_dock None)
       | None => ret tt
       end) in
  do! (let! dock := read _settings_dock in
       match dock with
       | Some d =>
           do! modify
                 (λ self,
                    set_iface (removeDockWidget (objectName d) (iface self))
                      self) in
           modify (set_settings_dock None)
       | None => ret tt
       end) in
  (* Remove actions from menu *)
  do! modify
        (λ self,
           set_iface
             (foldl (λ i ref, removePluginMenu "&Plugin Template" ref i)
                (iface self) (seq 0 (List.length (actions self))))
             self) in
  (* Remove toolbar: [if self.toolbar: del self.toolbar] *)
  do! (let! tb := getattr toolbar "toolbar" in
       match tb with
       | Some _ => modify (set_toolbar Unbound)
       | None => ret tt
       end) in
  (* Remove menu *)
  let! m := read menu in
  match m with
  | Some m =>
      modify
        (set_menu
           (Some
              {| menu_title := menu_title m;
                 menu_entries := menu_entries m;
                 menu_deleteLater := true |}))
  | None => ret tt
  end.

(** *** The two toggles *)

(** What the environment answers when a toggle tries to build its
    panel: the import of the dialog module raises, the panel's
    constructor raises, or the panel [w] is built and [addDockWidget] of
    the [iface] object the plugin was given then returns or raises.  The
    methods of the panel object itself ([setObjectName], [connect],
    [show], [raise_]) do not raise, and neither does
    [iface.mainWindow()], which [initGui] has called before. *)
Inductive construction (W : Type) :=
| ImportRaises (e : exn)
| ConstructorRaises (e : exn)
| Constructed (w : W) (addDockWidget : outcome unit).
Arguments ImportRaises {W} e.
Arguments ConstructorRaises {W} e.
Arguments Constructed {W} w addDockWidget.

Definition message_box (d : dialog) : M unit :=
  modify (λ self, set_iface (show_dialog d (iface self)) self).

Definition action_setChecked (ref : nat) (b : bool) : M unit :=
  modify (λ self, set_actions (alter (setChecked b) ref (actions self)) self).

(** A slot run by a signal: an exception raised inside it does not
    reach the code that caused the signal. *)
Definition emit (slot : M unit) : M unit :=
  try_except slot (λ _, ret tt).

Definition iface_addDockWidget (answer : outcome unit) (name : string)
    : M unit :=
  match answer with
  | Raises e => raise e
  | Returns _ =>
      modify
        (λ self,
           set_iface
             {| message_bar := message_bar (iface self);
                dialogs := dialogs (iface self);
                menu_bar := menu_bar (iface self);
                tool_bars := tool_bars (iface self);
                dock_widgets := dock_widgets (iface self) ++ [name];
                plugin_menu_removals := plugin_menu_removals (iface self) |}
             self)
  end.

Definition _on_sample_visibility_changed (v : bool) : M unit :=
  let! a := getattr sample_action "sample_action" in
  action_setChecked a v.

Definition _on_settings_visibility_changed (v : bool) : M unit :=
  let! a := getattr settings_action "settings_action" in
  action_setChecked a v.

(** [show()] and [hide()] on the sample dock, also when the host does
    it: the visibility changes and, if it did, the signal is emitted. *)
Definition sample_dock_setVisible (v : bool) : M unit :=
  let! dock := read _sample_dock in
  match dock with
  | None => ret tt
  | Some d =>
      if bool_decide (visible d = v) then ret tt
      else
        do! modify (set_sample_dock (Some (set_visible v d))) in
        if visibilityChanged_connected d
        then emit (_on_sample_visibility_changed v)
        else ret tt
  end.

Definition settings_dock_setVisible (v : bool) : M unit :=
  let! dock := read _settings_dock in
  match dock with
  | None => ret tt
  | Some d =>
      if bool_decide (visible d = v) then ret tt
      else
        do! modify (set_settings_dock (Some (set_visible v d))) in
        if visibilityChanged_connected d
        then emit (_on_settings_visibility_changed v)
        else ret tt
  end.

Definition new_dock {W} (w : W) : Dock W :=
  {| widget := w;
     objectName := EmptyString;
     visible := false;
     visibilityChanged_connected := false |}.

Definition toggle_sample_dock
    (attempt : construction SampleDock.SampleDockWidget) : M unit :=
  let! dock := read _sample_dock in
  match dock with
  | None =>
      try_except
        (match attempt with
         | ImportRaises e => raise e
         | ConstructorRaises e => raise e
         | Constructed w answer =>
             do! modify (set_sample_dock (Some (new_dock w))) in
             do! modify
                   (λ self,
                      set_sample_dock
                        (set_objectName "PluginTemplateSampleDock"
                           <$> _sample_dock self) self) in
             do! modify
                   (λ self,
                      set_sample_dock
                        (connect_visibilityChanged <$> _sample_dock self)
                        self) in
             do! iface_addDockWidget answer "PluginTemplateSampleDock" in
             do! sample_dock_setVisible true in
             (* raise_() *)
             ret tt
         end)
        (λ e,
           do! message_box
                 (Critical "Error"
                    ("Failed to create Sample panel:" +:+ newline
                     +:+ exn_str e)) in
           let! a := getattr sample_action "sample_action" in
           action_setChecked a false)
  | Some d =>
      (* Toggle visibility *)
      if visible d then sample_dock_setVisible false
      else sample_dock_setVisible true (* and raise_() *)
  end.

Definition toggle_settings_dock
    (attempt : construction SettingsDock.SettingsDockWidget) : M unit :=
  let! dock := read _settings_dock in
  match dock with
  | None =>
      try_except
        (match attempt with
         | ImportRaises e => raise e
         | ConstructorRaises e => raise e
         | Constructed w answer =>
             do! modify (set_settings_dock (Some (new_dock w))) in
             do! modify
                   (λ self,
                      set_settings_dock
                        (set_objectName "PluginTemplateSettingsDock"
                           <$> _settings_dock self) self) in
             do! modify
                   (λ self,
                      set_settings_dock
                        (connect_visibilityChanged <$> _settings_dock self)
                        self) in
             do! iface_addDockWidget answer "PluginTemplateSettingsDock" in
             do! settings_dock_setVisible true in
             (* raise_() *)
             ret tt
         end)
        (λ e,
           do! message_box
                 (Critical "Error"
                    ("Failed to create Settings panel:" +:+ newline
                     +:+ exn_str e)) in
           let! a := getattr settings_action "settings_action" in
           action_setChecked a false)
  | Some d =>
      (* Toggle visibility *)
      if visible d then settings_dock_setVisible false
      else settings_dock_setVisible true (* and raise_() *)
  end.

(** The user activates a toolbar button or menu entry: a checkable
    action flips its check mark, then its [triggered] signal runs the
    connected method. *)
Definition activate (ref : PluginTemplate → attribute nat) (attr : string)
    (slot : M unit) : M unit :=
  let! a := getattr ref attr in
  do! modify
        (λ self,
           set_actions
             (alter (λ act, setChecked (negb (checked act)) act) a
                (actions self))
             self) in
  emit slot.

(** What can happen to the two panels between [initGui] and [unload]. *)
Inductive event :=
| ClickSample (attempt : construction SampleDock.SampleDockWidget)
| ClickSettings (attempt : construction SettingsDock.SettingsDockWidget)
| CallToggleSample (attempt : construction SampleDock.SampleDockWidget)
| CallToggleSettings
    (attempt : construction SettingsDock.SettingsDockWidget)
| HostSampleVisible (v : bool)
| HostSettingsVisible (v : bool).

Definition handle (ev : event) : M unit :=
  match ev with
  | ClickSample attempt =>
      activate sample_action "sample_action" (toggle_sample_dock attempt)
  | ClickSettings attempt =>
      activate settings_action "settings_action"
        (toggle_settings_dock attempt)
  | CallToggleSample attempt => toggle_sample_dock attempt
  | CallToggleSettings attempt => toggle_settings_dock attempt
  | HostSampleVisible v => sample_dock_setVisible v
  | HostSettingsVisible v => settings_dock_setVisible v
  end.

Definition step (self : PluginTemplate) (ev : event) : PluginTemplate :=
  (handle ev self).2.

Definition run (evs : list event) (self : PluginTemplate) : PluginTemplate :=
  foldl step self evs.

(** The states after each event of [evs], in order. *)
Fixpoint states (evs : list event) (self : PluginTemplate)
    : list PluginTemplate :=
  match evs with
  | [] => []
  | ev :: evs => step self ev :: states evs (step self ev)
  end.

(** The plugin as loaded by the host: constructed, then [initGui]. *)
Definition loaded (i : QgisInterface) (dir : string)
    (exists_ : string → bool) : PluginTemplate :=
  (initGui exists_ (__init__ i dir)).2.

(** What the controller and the toggle controls show. *)
Definition action_checked (ref : attribute nat) (self : PluginTemplate)
    : bool :=
  match ref with
  | Bound a =>
      match actions self !! a with
      | Some act => checked act
      | None => false
      end
  | Unbound => false
  end.

Definition sample_checked (self : PluginTemplate) : bool :=
  action_checked (sample_action self) self.

Definition settings_checked (self : PluginTemplate) : bool :=
  action_checked (settings_action self) self.

Definition dock_visible {W} (dock : option (Dock W)) : bool :=
  match dock with
  | Some d => visible d
  | None => false
  end.

(** The exception a construction attempt ends with, if any, and whether
    it is raised before the new panel is assigned to the controller. *)
Definition failure {W} (attempt : construction W) : option exn :=
  match attempt with
  | ImportRaises e | ConstructorRaises e | Constructed _ (Raises e) => Some e
  | Constructed _ (Returns _) => None
  end.

Definition fails_before_assignment {W} (attempt : construction W) : bool :=
  match attempt with
  | ImportRaises _ | ConstructorRaises _ => true
  | Constructed _ _ => false
  end.

(** What [initGui] establishes and the toggles keep: the two toggle
    controls are the first two actions, both checkable; toolbar and
    menu exist; a panel the controller holds has its visibility signal
    connected. *)
Definition wired (self : PluginTemplate) : Prop :=
  sample_action self = Bound 0%nat ∧
  settings_action self = Bound 1%nat ∧
  (∃ a0 a1 a2 a3,
     actions self = [a0; a1; a2; a3] ∧
     checkable a0 = true ∧ checkable a1 = true) ∧
  (∃ tb, toolbar self = Bound (Some tb)) ∧
  (∀ d, _sample_dock self = Some d → visibilityChanged_connected d = true) ∧
  (∀ d, _settings_dock self = Some d → visibilityChanged_connected d = true).

(** Each toggle control is checked exactly when its panel is shown. *)
Definition consistent (self : PluginTemplate) : Prop :=
  sample_checked self = dock_visible (_sample_dock self) ∧
  settings_checked self = dock_visible (_settings_dock self).

(** *** [show_about] *)

Definition quote : string := String "034"%char EmptyString.

(** The f-string of [show_about], line by line. *)
Definition about_text (version : string) : string :=
  join_lines
    [ EmptyString;
      "<h2>Plugin Template for QGIS</h2>";
      "<p>Version: " +:+ version +:+ "</p>";
      "<p>Author: Your Name</p>";
      EmptyString;
      "<h3>Features:</h3>";
      "<ul>";
      "<li><b>Dockable Panels:</b> Sample panels that can be docked anywhere in the QGIS interface</li>";
      "<li><b>Update Checker:</b> Check for plugin updates from GitHub</li>";
      "<li><b>Settings Panel:</b> Configure plugin options</li>";
      "</ul>";
      EmptyString;
      "<h3>Links:</h3>";
      "<ul>";
      "<li><a href=" +:+ quote
        +:+ "https://github.com/opengeos/qgis-plugin-template" +:+ quote
        +:+ ">GitHub Repository</a></li>";
      "<li><a href=" +:+ quote
        +:+ "https://github.com/opengeos/qgis-plugin-template/issues"
        +:+ quote +:+ ">Report Issues</a></li>";
      "</ul>";
      EmptyString;
      "<p>Licensed under MIT License</p>";
      EmptyString ].

(** [open_read path] answers [open(path, "r", encoding="utf-8")]
    followed by [f.read()]: the text of the file, or the exception
    either of them raises. *)
Definition show_about (open_read : string → outcome string) : M unit :=
  let! dir := read plugin_dir in
  let! version :=
    try_except
      (let metadata_path := path_join dir "metadata.txt" in
       match open_read metadata_path with
       | Raises e => raise e
       | Returns content =>
           match re_search_version content with
           | Some group => ret (strip group)
           | None => ret "Unknown"
           end
       end)
      (λ e,
         do! message_box
               (Warning "Plugin Template"
                  ("Could not read version from metadata.txt:" +:+ newline
                   +:+ exn_str e)) in
         ret "Unknown") in
  message_box (About "About Plugin Template" (about_text version)).

(** The scan in the words of the specification: a line of the form
    [version=<value>] with a non-empty value gives the value. *)
Definition version_line (line : string) : option string :=
  match strip_prefix "version=" line with
  | Some EmptyString | None => None
  | Some value => Some value
  end.

(** The first line of the form [version=<value>], if there is one. *)
Fixpoint first_version_line (lines : list string) : option string :=
  match lines with
  | [] => None
  | line :: lines =>
      match version_line line with
      | Some value => Some value
      | None => first_version_line lines
      end
  end.

(** Example inputs. *)
Definition empty_iface : QgisInterface :=
  {| message_bar := [];
     dialogs := [];
     menu_bar := [];
     tool_bars := [];
     dock_widgets := [];
     plugin_menu_removals := [] |}.

Definition example_plugin : PluginTemplate :=
  loaded empty_iface "/plugins/plugin_template" (λ _, false).

(** *** [show_update_checker] *)

(** [try: body  except ImportError as e: handler(e)]: an exception of
    another class is not handled.  The class [ImportError] stands for
    itself and its subclasses. *)
Definition try_except_ImportError {A} (body : M A) (handler : exn → M A)
    : M A :=
  λ self,
    match body self with
    | (Returns a, self) => (Returns a, self)
    | (Raises e, self) =>
        match exn_type e with
        | ImportError => handler e self
        | _ => (Raises e, self)
        end
    end.

(** [import_] answers [from .dialogs.update_checker import
    UpdateCheckerDialog]; [open_dialog] answers the construction of the
    dialog followed by [dialog.exec_()]. *)
Definition show_update_checker (import_ open_dialog : outcome unit)
    : M unit :=
  let! imported :=
    try_except_ImportError
      (match import_ with
       | Raises e => raise e
       | Returns _ => ret true
       end)
      (λ e,
         do! message_box
               (Critical "Error"
                  ("Failed to import update checker dialog:" +:+ newline
                   +:+ exn_str e)) in
         ret false) in
  if imported : bool then
    try_except
      (match open_dialog with
       | Raises e => raise e
       | Returns _ => ret tt
       end)
      (λ e,
         message_box
           (Critical "Error"
              ("Failed to open update checker:" +:+ newline +:+ exn_str e)))
  else ret tt.

(** The host lists a dock of the plugin only while the controller holds
    it, and a dock the controller holds carries its object name. *)
Definition docks_tracked (self : PluginTemplate) : Prop :=
  match _sample_dock self with
  | None => "PluginTemplateSampleDock" ∉ dock_widgets (iface self)
  | Some d => objectName d = "PluginTemplateSampleDock"
  end ∧
  match _settings_dock self with
  | None => "PluginTemplateSettingsDock" ∉ dock_widgets (iface self)
  | Some d => objectName d = "PluginTemplateSettingsDock"
  end.

End Plugin.

(** * Properties *)

(** ** The preference store and the settings panel *)

Section SettingsProperties.
Import Qt Qgis SettingsDock.
Context `{Conversion}.

Lemma key_inj a b : key a = key b → a = b.
Proof. unfold key, SETTINGS_PREFIX. cbn. intros Heq. by simplify_eq. Qed.

Lemma value_bool_written (settings : gmap string QVariant) k b d :
  settings !! k = Some (VBool b) → value_bool settings k d = b.
Proof. unfold value_bool. by intros ->. Qed.

Lemma value_int_written (settings : gmap string QVariant) k n d :
  settings !! k = Some (VInt n) → value_int settings k d = n.
Proof. unfold value_int. by intros ->. Qed.

Lemma value_float_written (settings : gmap string QVariant) k q d :
  settings !! k = Some (VDouble q) → value_float settings k d = q.
Proof. unfold value_float. by intros ->. Qed.

Lemma value_str_written (settings : gmap string QVariant) k s d :
  settings !! k = Some (VString s) → value_str settings k d = s.
Proof. unfold value_str. by intros ->. Qed.

Lemma QSpinBox_setValue_id lo hi v :
  lo <= v <= hi → QSpinBox_setValue lo hi v = v.
Proof. unfold QSpinBox_setValue. lia. Qed.

Lemma QSpinBox_setValue_range lo hi v :
  lo <= hi → lo <= QSpinBox_setValue lo hi v <= hi.
Proof. unfold QSpinBox_setValue. lia. Qed.

Lemma QComboBox_setCurrentIndex_id count i :
  -1 <= i < count → QComboBox_setCurrentIndex count i = i.
Proof. unfold QComboBox_setCurrentIndex. intros. case_decide; lia. Qed.

Lemma round2_hundredths c : round2 (c # 100) = (c # 100)%Q.
Proof.
  unfold round2. f_equal.
  unfold Qfloor, Qplus, Qmult. cbn [Qnum Qden].
  change (Z.pos (100 * 1 * 2)) with 200.
  change (Z.pos (100 * 1)) with 100.
  symmetry. apply (Z.div_unique _ 200 c 100); lia.
Qed.

Lemma set_tolerance_id c :
  0 <= c <= 1000 → set_tolerance (c # 100) = (c # 100)%Q.
Proof.
  intros Hc. unfold set_tolerance, QDoubleSpinBox_setValue.
  rewrite round2_hundredths.
  change (round2 0) with (0 # 100)%Q. change (round2 10) with (1000 # 100)%Q.
  unfold Qle_bool. cbn [Qnum Qden].
  destruct (Z.leb_spec (c * 100) (0 * 100)).
  { f_equal. lia. }
  destruct (Z.leb_spec (1000 * 100) (c * 100)); [f_equal; lia | done].
Qed.

(** What the store holds under each of the fifteen keys once
    [write_all] has run. *)
Lemma write_all_lookup self (settings : gmap string QVariant) :
  let saved := write_all self settings in
  saved !! key "auto_load" = Some (VBool (auto_load_check self)) ∧
  saved !! key "notifications" = Some (VBool (notifications_check self)) ∧
  saved !! key "default_action" = Some (VInt (default_action_combo self)) ∧
  saved !! key "language" = Some (VInt (language_combo self)) ∧
  saved !! key "theme" = Some (VInt (theme_combo self)) ∧
  saved !! key "font_size" = Some (VInt (font_size_spin self)) ∧
  saved !! key "max_threads" = Some (VInt (max_threads_spin self)) ∧
  saved !! key "chunk_size" = Some (VInt (chunk_size_spin self)) ∧
  saved !! key "memory_limit" = Some (VInt (memory_limit_spin self)) ∧
  saved !! key "tolerance" = Some (VDouble (tolerance_spin self)) ∧
  saved !! key "debug" = Some (VBool (debug_check self)) ∧
  saved !! key "log_level" = Some (VInt (log_level_combo self)) ∧
  saved !! key "output_dir" = Some (VString (output_dir_input self)) ∧
  saved !! key "temp_dir" = Some (VString (temp_dir_input self)) ∧
  saved !! key "models_dir" = Some (VString (models_dir_input self)).
Proof.
  cbv zeta. unfold write_all, setValue.
  repeat split;
    repeat (rewrite lookup_insert_ne by (intros ?%key_inj; discriminate));
    apply lookup_insert_eq.
Qed.

(** Loading from a store that [write_all] has filled gives back the
    fields that were written, whatever the panel held before. *)
Lemma load_after_write self other (settings : gmap string QVariant) :
  in_range self →
  fields (_load_settings other (write_all self settings)) = fields self.
Proof.
  intros (Ha & Hl & Ht & Hf & Hm & Hc & Hmem & (c & Hc100 & Htol) & Hlog).
  destruct (write_all_lookup self settings)
    as (L1 & L2 & L3 & L4 & L5 & L6 & L7 & L8 & L9 & L10 & L11 & L12
        & L13 & L14 & L15).
  cbv zeta in *. unfold fields, _load_settings. cbn.
  rewrite (value_bool_written _ _ _ _ L1), (value_bool_written _ _ _ _ L2),
    (value_int_written _ _ _ _ L3), (value_int_written _ _ _ _ L4),
    (value_int_written _ _ _ _ L5), (value_int_written _ _ _ _ L6),
    (value_int_written _ _ _ _ L7), (value_int_written _ _ _ _ L8),
    (value_int_written _ _ _ _ L9), (value_float_written _ _ _ _ L10),
    (value_bool_written _ _ _ _ L11), (value_int_written _ _ _ _ L12),
    (value_str_written _ _ _ _ L13), (value_str_written _ _ _ _ L14),
    (value_str_written _ _ _ _ L15).
  rewrite !QComboBox_setCurrentIndex_id by done.
  unfold set_font_size, set_max_threads, set_chunk_size, set_memory_limit.
  rewrite !QSpinBox_setValue_id by done.
  rewrite Htol, set_tolerance_id by done.
  reflexivity.
Qed.

(** Loading overwrites every widget: the result does not depend on what
    the panel held. *)
Lemma load_overwrites self other (settings : gmap string QVariant) :
  _load_settings self settings = _load_settings other settings.
Proof. reflexivity. Qed.

Lemma in_range_panel_1024_8192 : in_range panel_1024_8192.
Proof.
  unfold in_range; cbn. repeat split; try done.
  exists 50. split; [lia | reflexivity].
Defined.

(** C1. Saving the panel and loading into a freshly constructed panel
    over the same preference store gives back each of the fifteen
    fields exactly as saved, for every in-range state of the widgets;
    in particular chunk size 1024 and memory limit 8192 come back as
    1024 and 8192. *)
Theorem save_then_fresh_load_round_trips self settings iface :
  let saved := (_save_settings self settings iface).1.2 in
  (in_range self → fields (__init__ saved) = fields self) ∧
  (chunk_size_spin self = 1024 → memory_limit_spin self = 8192 →
   chunk_size_spin (__init__ saved) = 1024 ∧
   memory_limit_spin (__init__ saved) = 8192).
Proof.
  cbn. unfold sync, __init__. split.
  - apply load_after_write.
  - intros Hc Hm.
    destruct (write_all_lookup self settings)
      as (_ & _ & _ & _ & _ & _ & _ & L8 & L9 & _).
    cbv zeta in *. cbn.
    rewrite (value_int_written _ _ _ _ L8), (value_int_written _ _ _ _ L9).
    rewrite Hc, Hm. done.
Qed.

(** C5. Resetting to defaults touches the widgets only.  On confirmation
    every field takes its default, the status reads "restored, not
    saved", and the preference store is left as it was, so that a load
    that follows (with no save in between) shows what the store holds:
    the values saved before, not the defaults.  On decline neither the
    panel nor the store changes. *)
Theorem reset_defaults_is_in_memory_only self settings iface :
  (let '(self', settings', _) := _reset_defaults Yes self settings iface in
   fields self' =
     (true, true, 0, 0, 0, 10, 4, 512, 4096, (50 # 100)%Q, false, 2,
      EmptyString, EmptyString, EmptyString) ∧
   text (status_label self') = "Defaults restored (not saved)" ∧
   settings' = settings ∧
   _load_settings self' settings' = _load_settings self settings ∧
   ∀ saved before iface0,
     in_range saved →
     settings = (_save_settings saved before iface0).1.2 →
     fields (_load_settings self' settings') = fields saved) ∧
  (let '(self', settings', _) := _reset_defaults No self settings iface in
   self' = self ∧ settings' = settings).
Proof.
  cbn. repeat split.
  intros saved before iface0 Hr ->. cbn. unfold sync.
  by apply load_after_write.
Qed.

End SettingsProperties.

(** C1 at the panel of the scenario, over the empty store. *)
Lemma save_then_fresh_load_round_trips_witness :
  let iface := Qgis.Build_QgisInterface [] [] [] [] [] [] in
  let saved :=
    (SettingsDock._save_settings SettingsDock.panel_1024_8192 ∅ iface).1.2 in
  SettingsDock.in_range SettingsDock.panel_1024_8192 ∧
  SettingsDock.fields (SettingsDock.__init__ (H := Qgis.default_constructed) saved)
    = SettingsDock.fields SettingsDock.panel_1024_8192 ∧
  SettingsDock.chunk_size_spin
    (SettingsDock.__init__ (H := Qgis.default_constructed) saved) = 1024 ∧
  SettingsDock.memory_limit_spin
    (SettingsDock.__init__ (H := Qgis.default_constructed) saved) = 8192.
Proof.
  cbv zeta.
  pose proof (save_then_fresh_load_round_trips (H := Qgis.default_constructed)
                SettingsDock.panel_1024_8192 ∅
                (Qgis.Build_QgisInterface [] [] [] [] [] [])) as [Hall Hone].
  split; [exact in_range_panel_1024_8192 |].
  split; [exact (Hall in_range_panel_1024_8192) |].
  exact (Hone eq_refl eq_refl).
Defined.

(** C5 at the panel of the scenario: saved, reset, loaded again. *)
Lemma reset_defaults_is_in_memory_only_witness :
  let iface := Qgis.Build_QgisInterface [] [] [] [] [] [] in
  let settings :=
    (SettingsDock._save_settings SettingsDock.panel_1024_8192 ∅ iface).1.2 in
  let self' :=
    (SettingsDock._reset_defaults Qt.Yes SettingsDock.panel_1024_8192
       settings iface).1.1 in
  SettingsDock.in_range SettingsDock.panel_1024_8192 ∧
  SettingsDock.chunk_size_spin self' = 512 ∧
  SettingsDock.fields
    (SettingsDock._load_settings (H := Qgis.default_constructed) self' settings)
    = SettingsDock.fields SettingsDock.panel_1024_8192.
Proof.
  cbv zeta.
  pose proof (reset_defaults_is_in_memory_only (H := Qgis.default_constructed)
                SettingsDock.panel_1024_8192
                (SettingsDock._save_settings SettingsDock.panel_1024_8192 ∅
                   (Qgis.Build_QgisInterface [] [] [] [] [] [])).1.2
                (Qgis.Build_QgisInterface [] [] [] [] [] [])) as [Hyes _].
  cbn in Hyes. destruct Hyes as (_ & _ & _ & _ & Hload).
  split; [exact in_range_panel_1024_8192 |].
  split; [reflexivity |].
  exact (Hload SettingsDock.panel_1024_8192 ∅
           (Qgis.Build_QgisInterface [] [] [] [] [] [])
           in_range_panel_1024_8192 eq_refl).
Defined.

(** ** The sample panel *)

Section SampleProperties.
Import Py Qt Qgis SampleDock.

(** Adding layer items to a box that already has an item appends them
    and keeps the current index. *)
Lemma add_layers_nonempty (project : list QgsMapLayer) (box : QComboBox) :
  items box ≠ [] →
  let box' :=
    foldl (λ box layer, addItem (name layer) (Some (id layer)) box)
      box project in
  items box' = (items box ++ map layer_item project)%list ∧
  currentIndex box' = currentIndex box.
Proof.
  revert box. induction project as [|layer project IH]; intros box Hne.
  - cbn. by rewrite app_nil_r.
  - cbn [foldl map].
    destruct (IH (addItem (name layer) (Some (id layer)) box)) as [Hi Hc].
    { cbn. by destruct (items box). }
    cbv zeta in *. rewrite Hi, Hc. cbn. split.
    + by rewrite <- app_assoc.
    + by destruct (items box).
Qed.

Lemma populate_layers_combo project self :
  layer_combo (_populate_layers project self) =
    {| items := sentinel :: map layer_item project; currentIndex := 0 |}.
Proof.
  unfold _populate_layers. cbn.
  destruct (add_layers_nonempty project
              {| items := [sentinel]; currentIndex := 0 |}) as [Hi Hc];
    [done |].
  cbv zeta in *. cbn in *.
  destruct (foldl _ _ project) as [its idx].
  cbn in *. by subst.
Qed.

Lemma sentinel_count (project : list QgsMapLayer) :
  List.length
    (filter (λ item, item.2 = None) (sentinel :: map layer_item project))
    = 1%nat.
Proof.
  assert (filter (λ item : string * option string, item.2 = None)
            (map layer_item project) = []) as Hnone.
  { induction project as [|layer project IH]; [done |].
    cbn [map]. by rewrite filter_cons_False. }
  rewrite filter_cons_True by done. by rewrite Hnone.
Qed.

Lemma closeEvent_returns self :
  (closeEvent self).1.1 = Returns tt ∧ (closeEvent self).2 = true.
Proof.
  unfold closeEvent, disconnect.
  by destruct (layersAdded_connected self), (layersRemoved_connected self).
Qed.

(** C6. Every rebuild of the layer list, whatever the panel showed
    before, leaves the "none selected" sentinel as first entry followed
    by one entry per loaded layer, with no other entry that carries no
    layer id, and makes the sentinel the current item.  The list is
    rebuilt when the panel is constructed and when a connected panel
    receives a layers-added or layers-removed notification. *)
Theorem layer_list_after_rebuild project self :
  let rebuilt := layer_combo (_populate_layers project self) in
  items rebuilt = sentinel :: map layer_item project ∧
  List.length (filter (λ item, item.2 = None) (items rebuilt)) = 1%nat ∧
  List.length (items rebuilt) = S (List.length project) ∧
  currentIndex rebuilt = 0 ∧
  currentData rebuilt = None ∧
  layer_combo (__init__ project) = rebuilt ∧
  (layersAdded_connected self = true →
   layer_combo (layersAdded project self) = rebuilt) ∧
  (layersRemoved_connected self = true →
   layer_combo (layersRemoved project self) = rebuilt).
Proof.
  cbv zeta. rewrite populate_layers_combo. cbn [items currentIndex].
  split; [done |]. split; [apply sentinel_count |].
  split; [cbn; by rewrite length_map |].
  split; [done |]. split; [done |].
  split.
  { unfold __init__, _setup_ui. cbn [set_connections layer_combo].
    apply populate_layers_combo. }
  unfold layersAdded, layersRemoved.
  split; intros ->; apply populate_layers_combo.
Qed.

(** C7. Running the sample action always completes: while it runs the
    status label reads "Processing..." in blue, afterwards it reads
    "Completed" in green, the progress bar is hidden again, the output
    holds the report and one success message has been pushed.  With no
    layers loaded, text "abc", number 42 and the option checked, the
    report contains the lines "Text Input: abc", "Number Value: 42" and
    "Option Enabled: True". *)
Theorem run_action_reports self iface :
  let finished := (_run_action self iface).1 in
  let iface' := (_run_action self iface).2 in
  status_label (processing self) =
    {| text := "Processing..."; styleSheet := "color: blue; font-size: 10px;" |} ∧
  String.prefix "Processing" (text (status_label (processing self))) = true ∧
  status_label finished =
    {| text := "Completed"; styleSheet := "color: green; font-size: 10px;" |} ∧
  progress_visible finished = false ∧
  output_text finished =
    join_lines
      (output_lines (currentData (layer_combo self)) (text_input self)
         (number_spin self) (option_check self) (file_input self)) ∧
  message_bar iface' =
    (message_bar iface ++
     [("Plugin Template", "Sample action completed successfully!")])%list ∧
  let report := split_lines (output_text (_run_action panel_abc_42 iface).1) in
  items (layer_combo panel_abc_42) = [sentinel] ∧
  "Text Input: abc" ∈ report ∧
  "Number Value: 42" ∈ report ∧
  "Option Enabled: True" ∈ report.
Proof.
  cbv zeta. repeat split; try reflexivity.
  all: vm_compute; set_solver.
Qed.

(** C9. Closing the sample panel never raises and always accepts the
    event, whatever its connections are; a panel with both
    notifications connected (or both already disconnected) has none
    connected afterwards, and closing it a second time completes in the
    same way. *)
Theorem closeEvent_unsubscribes_and_is_repeatable self :
  let closed := (closeEvent self).1.2 in
  (closeEvent self).1.1 = Returns tt ∧
  (closeEvent self).2 = true ∧
  layersAdded_connected closed = false ∧
  (layersAdded_connected self = layersRemoved_connected self →
   layersRemoved_connected closed = false) ∧
  closeEvent closed = (Returns tt, closed, true) ∧
  ∀ project,
    closeEvent (__init__ project) =
      (Returns tt, set_connections false false (__init__ project), true).
Proof.
  cbv zeta. unfold closeEvent, disconnect.
  destruct self as [? ? ? ? ? ? ? ? ? [] []]; cbn; repeat split; done.
Qed.

(** C10. The report renders unset fields with fixed placeholders: with
    the sentinel selected the layer line is "Selected Layer ID: None",
    with an empty text field the text line is "Text Input: (empty)",
    and with no file chosen the file line is "File Path: (none)". *)
Theorem report_placeholders self iface :
  let lines :=
    output_lines (currentData (layer_combo self)) (text_input self)
      (number_spin self) (option_check self) (file_input self) in
  output_text (_run_action self iface).1 = join_lines lines ∧
  (currentIndex (layer_combo self) = 0 →
   items (layer_combo self) !! 0%nat = Some sentinel →
   lines !! 2%nat = Some "Selected Layer ID: None") ∧
  (text_input self = EmptyString →
   lines !! 3%nat = Some "Text Input: (empty)") ∧
  (file_input self = EmptyString →
   lines !! 6%nat = Some "File Path: (none)").
Proof.
  cbv zeta. split; [reflexivity |]. split; [| split].
  - intros Hidx Hitem. unfold currentData. rewrite Hidx.
    change (Z.to_nat 0) with 0%nat. rewrite Hitem.
    by case_decide.
  - by intros ->.
  - by intros ->.
Qed.

End SampleProperties.

(** C6 at a panel built over an empty project that is told of one layer. *)
Lemma layer_list_after_rebuild_witness :
  let layer := {| Qgis.id := "roads_1"; Qgis.name := "roads" |} in
  let self := SampleDock.__init__ [] in
  SampleDock.layersAdded_connected self = true ∧
  Qt.items (SampleDock.layer_combo (SampleDock.layersAdded [layer] self)) =
    [SampleDock.sentinel; ("roads", Some "roads_1")] ∧
  Qt.currentIndex (SampleDock.layer_combo (SampleDock.layersAdded [layer] self)) = 0.
Proof.
  cbv zeta.
  pose proof (layer_list_after_rebuild
                [{| Qgis.id := "roads_1"; Qgis.name := "roads" |}]
                (SampleDock.__init__ [])) as (_ & _ & _ & _ & _ & _ & Hadd & _).
  cbv zeta in Hadd. specialize (Hadd eq_refl).
  split; [reflexivity |]. rewrite Hadd. split; reflexivity.
Defined.

(** C9 at a freshly built panel. *)
Lemma closeEvent_unsubscribes_and_is_repeatable_witness :
  let self := SampleDock.__init__ [] in
  SampleDock.layersAdded_connected self = SampleDock.layersRemoved_connected self ∧
  SampleDock.layersRemoved_connected (SampleDock.closeEvent self).1.2 = false.
Proof.
  cbv zeta.
  pose proof (closeEvent_unsubscribes_and_is_repeatable (SampleDock.__init__ []))
    as (_ & _ & _ & Hboth & _).
  split; [reflexivity | exact (Hboth eq_refl)].
Defined.

(** C10 at a freshly built panel: sentinel selected, no text, no file. *)
Lemma report_placeholders_witness :
  let self := SampleDock.__init__ [] in
  let iface := Qgis.Build_QgisInterface [] [] [] [] [] [] in
  let lines :=
    SampleDock.output_lines (Qt.currentData (SampleDock.layer_combo self))
      (SampleDock.text_input self) (SampleDock.number_spin self)
      (SampleDock.option_check self) (SampleDock.file_input self) in
  (Qt.currentIndex (SampleDock.layer_combo self) = 0 ∧
   Qt.items (SampleDock.layer_combo self) !! 0%nat = Some SampleDock.sentinel ∧
   SampleDock.text_input self = EmptyString ∧
   SampleDock.file_input self = EmptyString) ∧
  lines !! 2%nat = Some "Selected Layer ID: None" ∧
  lines !! 3%nat = Some "Text Input: (empty)" ∧
  lines !! 6%nat = Some "File Path: (none)".
Proof.
  cbv zeta.
  pose proof (report_placeholders (SampleDock.__init__ [])
                (Qgis.Build_QgisInterface [] [] [] [] [] []))
    as (_ & Hlayer & Htext & Hfile).
  cbv zeta in *.
  split; [repeat split; reflexivity |].
  split; [exact (Hlayer eq_refl eq_refl) |].
  split; [exact (Htext eq_refl) | exact (Hfile eq_refl)].
Defined.

(** ** The plugin controller *)

Section PluginProperties.
Import Py Qt Qgis Plugin.

Example example_unload_twice :
  (unload example_plugin).1 = Returns tt ∧
  (unload (unload example_plugin).2).1 =
    Raises (no_attribute "PluginTemplate" "toolbar").
Proof. split; reflexivity. Qed.

Lemma loaded_wired i dir exists_ :
  wired (loaded i dir exists_) ∧ consistent (loaded i dir exists_) ∧
  _sample_dock (loaded i dir exists_) = None ∧
  _settings_dock (loaded i dir exists_) = None.
Proof.
  unfold wired, consistent, sample_checked, settings_checked.
  lazy -[path_join icon_or].
  repeat split; try done; eexists; repeat eexists.
Qed.

Lemma step_wired self ev :
  wired self → consistent self →
  wired (step self ev) ∧ consistent (step self ev).
Proof.
  intros (Hs & Ht & (a0 & a1 & a2 & a3 & Ha & Hc0 & Hc1) & (tb & Htb)
          & Hcs & Hct) [Hvs Hvt].
  destruct self as [i dir acts m t sd td sa ta].
  cbn in Hs, Ht, Ha, Htb, Hcs, Hct. subst sa ta acts t.
  unfold consistent, sample_checked, settings_checked in *.
  cbn in Hvs, Hvt.
  destruct a0 as [? ? ? ? c0 k0 ?], a1 as [? ? ? ? c1 k1 ?].
  cbn in Hc0, Hc1. subst c0 c1.
  unfold step, wired, consistent, sample_checked, settings_checked.
  destruct ev as [att | att | att | att | v | v];
    try destruct att as [e | e | w [[] | e]];
    destruct sd as [[ws ns [] cs] |], td as [[wt nt [] ct] |];
    try (specialize (Hcs _ eq_refl)); try (specialize (Hct _ eq_refl));
    cbn in Hcs, Hct, Hvs, Hvt; subst;
    try destruct v.
  all: lazy.
  all: repeat split; try done; try (intros ? [= <-]; done);
    try (eexists; repeat eexists).
Qed.

Lemma run_wired evs self :
  wired self → consistent self →
  wired (run evs self) ∧ consistent (run evs self).
Proof.
  revert self. induction evs as [|ev evs IH]; intros self Hw Hc; [done |].
  cbn. destruct (step_wired self ev Hw Hc). by apply IH.
Qed.

Lemma states_consistent evs self :
  wired self → consistent self → Forall consistent (states evs self).
Proof.
  revert self. induction evs as [|ev evs IH]; intros self Hw Hc; cbn.
  - constructor.
  - destruct (step_wired self ev Hw Hc). constructor; [done | by apply IH].
Qed.

(** C2, as the code has it.  In every state reached from [initGui] by
    toggles and visibility changes, the first [unload] returns, leaves
    no panel with the controller and deletes the [toolbar] attribute,
    while the four actions stay in [self.actions]; the second [unload]
    raises [AttributeError] when it tests [self.toolbar]. *)
Theorem second_unload_raises i dir exists_ evs :
  let self := run evs (loaded i dir exists_) in
  (unload self).1 = Returns tt ∧
  _sample_dock (unload self).2 = None ∧
  _settings_dock (unload self).2 = None ∧
  toolbar (unload self).2 = Unbound ∧
  List.length (actions (unload self).2) = 4%nat ∧
  (unload (unload self).2).1 =
    Raises (no_attribute "PluginTemplate" "toolbar").
Proof.
  cbv zeta.
  destruct (loaded_wired i dir exists_) as (Hw & Hc & _).
  destruct (run_wired evs _ Hw Hc)
    as [(_ & _ & (a0 & a1 & a2 & a3 & Ha & _) & (tb & Htb) & _) _].
  destruct (run evs (loaded i dir exists_))
    as [i' dir' acts m t sd td sa ta].
  cbn in Ha, Htb. subst acts t.
  destruct sd, td, m; lazy; repeat split; done.
Qed.

(** C3, amended.  When the first toggle of either panel fails while the
    panel is being built, a critical message box with the exception's
    text is shown and the panel's toggle control is unchecked, and the
    toggle returns normally; the controller holds no panel afterwards
    when the exception came from the import or from the panel's
    constructor. *)
Theorem construction_failure_is_reported self e :
  wired self →
  (∀ attempt,
     _sample_dock self = None → failure attempt = Some e →
     let result := toggle_sample_dock attempt self in
     result.1 = Returns tt ∧
     dialogs (iface result.2) =
       (dialogs (iface self) ++
        [Critical "Error"
           ("Failed to create Sample panel:" +:+ newline +:+ exn_str e)])%list ∧
     sample_checked result.2 = false ∧
     (fails_before_assignment attempt = true →
      _sample_dock result.2 = None)) ∧
  (∀ attempt,
     _settings_dock self = None → failure attempt = Some e →
     let result := toggle_settings_dock attempt self in
     result.1 = Returns tt ∧
     dialogs (iface result.2) =
       (dialogs (iface self) ++
        [Critical "Error"
           ("Failed to create Settings panel:" +:+ newline +:+ exn_str e)])%list ∧
     settings_checked result.2 = false ∧
     (fails_before_assignment attempt = true →
      _settings_dock result.2 = None)).
Proof.
  intros (Hs & Ht & (a0 & a1 & a2 & a3 & Ha & Hc0 & Hc1) & _).
  destruct self as [i dir acts m t sd td sa ta].
  cbn in Hs, Ht, Ha. subst sa ta acts.
  destruct a0 as [? ? ? ? c0 k0 ?], a1 as [? ? ? ? c1 k1 ?].
  cbn in Hc0, Hc1. subst c0 c1.
  unfold sample_checked, settings_checked.
  split; intros attempt Hnone Hfail; cbn in Hnone; subst;
    destruct attempt as [e' | e' | w [[] | e']]; cbn in Hfail;
    simplify_eq; lazy; repeat split; done.
Qed.

(** C4. After every toggle (through the toggle control or by a direct
    call, building the panel or failing to) and after every visibility
    change made by the host, each toggle control is checked exactly
    when its panel is shown. *)
Theorem toggle_controls_mirror_visibility i dir exists_ evs :
  Forall consistent (states evs (loaded i dir exists_)) ∧
  consistent (run evs (loaded i dir exists_)).
Proof.
  destruct (loaded_wired i dir exists_) as (Hw & Hc & _).
  split; [by apply states_consistent | by apply run_wired].
Qed.

End PluginProperties.

(** C3 as stated fails when the host's [addDockWidget] raises: the
    message box is shown and the control unchecked, but the panel built
    just before stays with the controller. *)
Lemma attach_failure_keeps_panel :
  let e := Py.Exn Py.RuntimeError "addDockWidget failed" in
  let attempt := Plugin.Constructed (SampleDock.__init__ []) (Py.Raises e) in
  let result := Plugin.toggle_sample_dock attempt Plugin.example_plugin in
  Plugin._sample_dock Plugin.example_plugin = None ∧
  Plugin.failure attempt = Some e ∧
  Qgis.dialogs (Plugin.iface result.2) =
    [Qt.Critical "Error"
       ("Failed to create Sample panel:" +:+ Py.newline +:+ "addDockWidget failed")] ∧
  Plugin.sample_checked result.2 = false ∧
  Plugin._sample_dock result.2 ≠ None.
Proof. cbv zeta. repeat split; try reflexivity. by vm_compute. Qed.

(** C3 (amended) at a failing import of the sample dialog module. *)
Lemma construction_failure_is_reported_witness :
  let e := Py.Exn Py.ImportError "No module named 'qgis.core'" in
  let result :=
    Plugin.toggle_sample_dock (Plugin.ImportRaises e) Plugin.example_plugin in
  Plugin.wired Plugin.example_plugin ∧
  Plugin.sample_checked result.2 = false ∧
  Plugin._sample_dock result.2 = None.
Proof.
  cbv zeta.
  pose proof (loaded_wired Plugin.empty_iface "/plugins/plugin_template"
                (λ _, false)) as (Hw & _).
  pose proof (construction_failure_is_reported Plugin.example_plugin
                (Py.Exn Py.ImportError "No module named 'qgis.core'") Hw)
    as [Hsample _].
  destruct (Hsample (Plugin.ImportRaises
                       (Py.Exn Py.ImportError "No module named 'qgis.core'"))
              eq_refl eq_refl) as (_ & _ & Hunchecked & Hnone).
  split; [exact Hw |]. split; [exact Hunchecked | exact (Hnone eq_refl)].
Defined.

(** ** Reading the version from the metadata file *)

Section VersionProperties.
Import Py Qt Qgis Plugin.

Lemma split_lines_take_line s :
  ∃ lines, split_lines s = take_line s :: lines.
Proof.
  induction s as [|c s [lines IH]]; cbn; [by eexists |].
  destruct (Ascii.eqb c "010"); [by eexists |].
  rewrite IH. by eexists.
Qed.

Lemma strip_prefix_take_line p s :
  no_newline p = true →
  strip_prefix p (take_line s) = take_line <$> strip_prefix p s.
Proof.
  revert s. induction p as [|a p IH]; intros s Hp; [done |].
  cbn in Hp. apply andb_prop in Hp as [Ha Hp].
  destruct s as [|b s]; [done |]. cbn.
  destruct (Ascii.eqb b "010") eqn:Hb.
  - apply Ascii.eqb_eq in Hb. subst b.
    destruct (Ascii.eqb a "010") eqn:Ha'; [done |]. by cbn.
  - cbn. destruct (Ascii.eqb a b); [by apply IH | done].
Qed.

Lemma match_version_here_line s :
  match_version_here s = version_line (take_line s).
Proof.
  unfold match_version_here, version_line.
  rewrite strip_prefix_take_line by done.
  destruct (strip_prefix "version=" s) as [rest|]; cbn; [| done].
  by destruct (take_line rest).
Qed.

Lemma version_line_newline s :
  match_version_here (String "010" s) = None.
Proof. done. Qed.

Lemma search_version_lines s :
  search_version true s = first_version_line (split_lines s) ∧
  search_version false s = first_version_line (tail (split_lines s)).
Proof.
  induction s as [|c s [IHt IHf]]; [done |].
  cbn [search_version split_lines].
  destruct (Ascii.eqb c "010") eqn:Hc.
  - apply Ascii.eqb_eq in Hc. subst c.
    rewrite version_line_newline. cbn. by rewrite IHt.
  - rewrite match_version_here_line.
    destruct (split_lines_take_line (String c s)) as [lines' Hl'].
    cbn [take_line split_lines] in Hl'. rewrite Hc in Hl'.
    destruct (split_lines s) as [|line lines] eqn:Hs.
    { destruct (split_lines_take_line s) as [? ?]. congruence. }
    injection Hl' as Hline _.
    cbn [take_line]. rewrite Hc, <- Hline. cbn [tail first_version_line].
    rewrite IHf. cbn [tail].
    by destruct (version_line (String c line)).
Qed.

Lemma re_search_version_first_line content :
  re_search_version content = first_version_line (split_lines content).
Proof. apply search_version_lines. Qed.

(** C8. The about box shows the version found by scanning the lines of
    the metadata file for the first one of the form version=<value>,
    with surrounding whitespace removed ("Unknown" when there is none).
    Whenever reading the file raises, a warning box with the
    exception's text is shown, the method carries on, and the about box
    shows the version as "Unknown". *)
Theorem show_about_version self open_read :
  let path := path_join (plugin_dir self) "metadata.txt" in
  let result := show_about open_read self in
  result.1 = Returns tt ∧
  (∀ e,
     open_read path = Raises e →
     dialogs (iface result.2) =
       (dialogs (iface self) ++
        [Warning "Plugin Template"
           ("Could not read version from metadata.txt:" +:+ newline
            +:+ exn_str e);
         About "About Plugin Template" (about_text "Unknown")])%list) ∧
  (∀ content,
     open_read path = Returns content →
     dialogs (iface result.2) =
       (dialogs (iface self) ++
        [About "About Plugin Template"
           (about_text
              match first_version_line (split_lines content) with
              | Some value => strip value
              | None => "Unknown"
              end)])%list).
Proof.
  cbv zeta. unfold show_about, bind, read, try_except, message_box, modify.
  cbn [fst snd].
  destruct (open_read (path_join (plugin_dir self) "metadata.txt"))
    as [content | e] eqn:Hread.
  - rewrite re_search_version_first_line.
    destruct (first_version_line (split_lines content)) eqn:Hfound;
      cbn -[about_text];
      (split; [done |]); (split; [by intros ? [=] |]);
      intros ? [= <-]; by rewrite Hfound.
  - cbn -[about_text]. split; [done |]. split; [| done].
    intros ? [= <-]. by rewrite <- app_assoc.
Qed.

End VersionProperties.

(** C8 when the metadata file cannot be opened, and when it holds a
    version line. *)
Lemma show_about_version_witness :
  let missing : string → Py.outcome string :=
    λ _, Py.Raises (Py.Exn Py.OSError "No such file or directory") in
  let present : string → Py.outcome string :=
    λ _, Py.Returns ("[general]" +:+ Py.newline +:+ "name=Plugin Template"
                     +:+ Py.newline +:+ "version= 0.1.0 " +:+ Py.newline) in
  Qgis.dialogs (Plugin.iface (Plugin.show_about missing Plugin.example_plugin).2) =
    [Qt.Warning "Plugin Template"
       ("Could not read version from metadata.txt:" +:+ Py.newline
        +:+ "No such file or directory");
     Qt.About "About Plugin Template" (Plugin.about_text "Unknown")] ∧
  Qgis.dialogs (Plugin.iface (Plugin.show_about present Plugin.example_plugin).2) =
    [Qt.About "About Plugin Template" (Plugin.about_text "0.1.0")].
Proof.
  cbv zeta. split.
  - exact (proj1 (proj2 (show_about_version Plugin.example_plugin
             (λ _, Py.Raises (Py.Exn Py.OSError "No such file or directory"))))
             _ eq_refl).
  - exact (proj2 (proj2 (show_about_version Plugin.example_plugin
             (λ _, Py.Returns ("[general]" +:+ Py.newline +:+ "name=Plugin Template"
                     +:+ Py.newline +:+ "version= 0.1.0 " +:+ Py.newline))))
             _ eq_refl).
Defined.

(** * Further properties *)

(** ** The settings panel: missing keys, clamping, what a save writes *)

Section SettingsFurther.
Import Qt Qgis SettingsDock.
Context `{Conversion}.

Lemma set_tolerance_range q :
  ∃ c : Z, 0 <= c <= 1000 ∧ set_tolerance q = (c # 100)%Q.
Proof.
  unfold set_tolerance, QDoubleSpinBox_setValue.
  change (round2 0) with (0 # 100)%Q. change (round2 10) with (1000 # 100)%Q.
  unfold round2. set (c := Qfloor (q * 100 + (1 # 2))).
  unfold Qle_bool. cbn [Qnum Qden].
  destruct (Z.leb_spec (c * 100) (0 * 100)); [exists 0; split; [lia | done] |].
  destruct (Z.leb_spec (1000 * 100) (c * 100));
    [exists 1000; split; [lia | done] |].
  exists c. split; [lia | done].
Qed.

Lemma QComboBox_setCurrentIndex_range count i :
  0 < count → -1 <= QComboBox_setCurrentIndex count i < count.
Proof. unfold QComboBox_setCurrentIndex. intros. case_decide; lia. Qed.

Lemma load_in_range self settings : in_range (_load_settings self settings).
Proof.
  unfold in_range, _load_settings. cbn.
  unfold set_font_size, set_max_threads, set_chunk_size, set_memory_limit.
  repeat split;
    try (apply QComboBox_setCurrentIndex_range; done);
    try (apply QSpinBox_setValue_range; done).
  apply set_tolerance_range.
Qed.

Lemma key_has_prefix name : String.prefix SETTINGS_PREFIX (key name) = true.
Proof. unfold key, SETTINGS_PREFIX. cbn. by destruct name. Qed.

Lemma write_all_other self (settings : gmap string QVariant) k :
  (∀ name, name ∈ setting_names → k ≠ key name) →
  write_all self settings !! k = settings !! k.
Proof.
  intros Hk. unfold write_all, setValue.
  repeat (rewrite lookup_insert_ne;
          [| intros <-; eapply Hk; [| reflexivity];
             unfold setting_names; set_solver]).
  done.
Qed.

Lemma write_all_twice self (settings : gmap string QVariant) :
  write_all self (write_all self settings) = write_all self settings.
Proof.
  apply map_eq. intros k.
  destruct (decide (k ∈ key <$> setting_names)) as [Hin | Hout].
  - destruct (write_all_lookup self settings)
      as (L1 & L2 & L3 & L4 & L5 & L6 & L7 & L8 & L9 & L10 & L11 & L12
          & L13 & L14 & L15).
    destruct (write_all_lookup self (write_all self settings))
      as (M1 & M2 & M3 & M4 & M5 & M6 & M7 & M8 & M9 & M10 & M11 & M12
          & M13 & M14 & M15).
    cbv zeta in *. cbn [fmap list_fmap setting_names] in Hin.
    repeat (apply elem_of_cons in Hin as [-> | Hin]; [congruence |]).
    by apply elem_of_nil in Hin.
  - rewrite !write_all_other; [done | |];
      intros name Hname ->; apply Hout; by apply list_elem_of_fmap_2.
Qed.

(** X1. When the store holds none of the fifteen keys, loading gives the
    panel exactly as [_setup_ui] built it: every field at its default. *)
Theorem load_without_keys_gives_defaults self (settings : gmap string QVariant) :
  (∀ name, name ∈ setting_names → settings !! key name = None) →
  _load_settings self settings = _setup_ui ∧
  fields (_load_settings self settings) =
    (true, true, 0, 0, 0, 10, 4, 512, 4096, (50 # 100)%Q, false, 2,
     EmptyString, EmptyString, EmptyString).
Proof.
  intros Hnone.
  assert (∀ name, name ∈ setting_names → settings !! key name = None) as Hn
    by done.
  unfold _load_settings, value_bool, value_int, value_float, value_str.
  rewrite !Hn by (unfold setting_names; set_solver).
  split; reflexivity.
Qed.

(** X2. From a store that is well typed (each value present under one
    of the fifteen keys has the type the panel writes there, integers
    fit a C int) a load leaves every widget inside its range: a stored
    spin-box value outside the bounds given to [setRange] is replaced by
    the nearest bound, a stored combo index that is not the index of an
    item leaves the box without a current item, and the tolerance is a
    two-decimal value of [0, 10]. *)
Theorem load_clamps_into_range self settings :
  well_typed settings →
  let loaded := _load_settings self settings in
  in_range loaded ∧
  (∀ n, settings !! key "font_size" = Some (VInt n) →
        font_size_spin loaded =
          if decide (n < 8) then 8 else if decide (24 < n) then 24 else n) ∧
  (∀ n, settings !! key "max_threads" = Some (VInt n) →
        max_threads_spin loaded =
          if decide (n < 1) then 1 else if decide (32 < n) then 32 else n) ∧
  (∀ n, settings !! key "chunk_size" = Some (VInt n) →
        chunk_size_spin loaded =
          if decide (n < 256) then 256
          else if decide (4096 < n) then 4096 else n) ∧
  (∀ n, settings !! key "memory_limit" = Some (VInt n) →
        memory_limit_spin loaded =
          if decide (n < 256) then 256
          else if decide (16384 < n) then 16384 else n) ∧
  (∀ n, settings !! key "default_action" = Some (VInt n) →
        default_action_combo loaded = if decide (0 <= n < 3) then n else -1) ∧
  (∀ n, settings !! key "language" = Some (VInt n) →
        language_combo loaded = if decide (0 <= n < 5) then n else -1) ∧
  (∀ n, settings !! key "theme" = Some (VInt n) →
        theme_combo loaded = if decide (0 <= n < 3) then n else -1) ∧
  (∀ n, settings !! key "log_level" = Some (VInt n) →
        log_level_combo loaded = if decide (0 <= n < 4) then n else -1).
Proof.
  intros _. cbv zeta. split; [apply load_in_range |].
  unfold _load_settings. cbn.
  unfold set_font_size, set_max_threads, set_chunk_size, set_memory_limit,
    QSpinBox_setValue, QComboBox_setCurrentIndex, default_action_count,
    language_count, theme_count, log_level_count.
  repeat split; intros n Hn; rewrite (value_int_written _ _ _ _ Hn);
    repeat case_decide; lia.
Qed.

(** X3. A panel loaded from a well-typed store survives save and reload:
    saving it (over any store) and building a fresh panel gives the same
    fifteen values, also when the store held values outside the widgets'
    ranges. *)
Theorem loaded_panel_survives_save_and_reload self settings other iface :
  well_typed settings →
  let loaded := _load_settings self settings in
  fields (__init__ (_save_settings loaded other iface).1.2) = fields loaded.
Proof.
  intros _. cbv zeta. cbn [_save_settings fst snd]. unfold sync, __init__.
  apply load_after_write, load_in_range.
Qed.

(** X4. A save writes the fifteen keys under the prefix and nothing
    else: the keys of the store afterwards are the old ones and those
    fifteen, every key that does not start with the prefix keeps its
    value, the widgets keep theirs, and one success message is pushed. *)
Theorem save_touches_only_its_keys self (settings : gmap string QVariant) iface :
  let saved := (_save_settings self settings iface).1.2 in
  dom saved = dom settings ∪ list_to_set (key <$> setting_names) ∧
  (∀ k, String.prefix SETTINGS_PREFIX k = false →
        saved !! k = settings !! k) ∧
  fields (_save_settings self settings iface).1.1 = fields self ∧
  message_bar (_save_settings self settings iface).2 =
    (message_bar iface ++
     [("Plugin Template", "Settings saved successfully!")])%list.
Proof.
  cbv zeta. cbn [_save_settings fst snd]. unfold sync.
  split; [| split; [| done]].
  - unfold write_all, setValue. rewrite !dom_insert_L.
    cbn [fmap list_fmap setting_names list_to_set].
    apply set_eq. intros k. set_unfold. tauto.
  - intros k Hk. apply write_all_other. intros name _ ->.
    by rewrite key_has_prefix in Hk.
Qed.

(** X5. Saving twice in a row leaves the store as the first save left
    it. *)
Theorem save_twice_is_save_once self settings iface iface' :
  let once := _save_settings self settings iface in
  (_save_settings once.1.1 once.1.2 iface').1.2 = once.1.2.
Proof.
  cbv zeta. cbn [_save_settings fst snd]. unfold sync.
  replace (write_all (SettingsDock.set_status _ _ self))
    with (write_all self) by reflexivity.
  apply write_all_twice.
Qed.

(** X6. A confirmed reset followed by a save makes the defaults
    permanent: a fresh panel built over the store then shows every field
    at its default, as [_setup_ui] builds it. *)
Theorem reset_then_save_persists_defaults self settings iface iface' :
  let reset := _reset_defaults Yes self settings iface in
  let saved := (_save_settings reset.1.1 reset.1.2 iface').1.2 in
  __init__ saved = _setup_ui ∧
  fields (__init__ saved) =
    (true, true, 0, 0, 0, 10, 4, 512, 4096, (50 # 100)%Q, false, 2,
     EmptyString, EmptyString, EmptyString).
Proof.
  cbv zeta. cbn [_save_settings _reset_defaults fst snd]. unfold sync, __init__.
  match goal with
  | |- context [write_all ?p settings] =>
      pose proof (load_after_write p _setup_ui settings) as Hload;
      assert (in_range p) as Hr
  end.
  { unfold in_range. cbn. repeat split; try done.
    exists 50. split; [lia | reflexivity]. }
  specialize (Hload Hr). split; [| exact Hload].
  unfold fields in Hload. unfold _load_settings in *. cbn in Hload.
  simplify_eq. cbn. by f_equal.
Qed.

End SettingsFurther.

(** X1 at the empty store. *)
Lemma load_without_keys_gives_defaults_witness :
  (∀ name, name ∈ SettingsDock.setting_names →
           (∅ : gmap string Qgis.QVariant) !! SettingsDock.key name = None) ∧
  SettingsDock.__init__ (H := Qgis.default_constructed) ∅
    = SettingsDock._setup_ui.
Proof.
  split; [intros; apply lookup_empty |].
  exact (proj1 (load_without_keys_gives_defaults (H := Qgis.default_constructed)
                  SettingsDock._setup_ui ∅ (λ _ _, lookup_empty _))).
Defined.

Lemma well_typed_store_out_of_range :
  SettingsDock.well_typed SettingsDock.store_out_of_range.
Proof. vm_compute. repeat split; discriminate. Defined.

(** X2 at a store with a chunk size of 999999 and a theme index of 7. *)
Lemma load_clamps_into_range_witness :
  let loaded :=
    SettingsDock._load_settings (H := Qgis.default_constructed)
      SettingsDock._setup_ui SettingsDock.store_out_of_range in
  SettingsDock.well_typed SettingsDock.store_out_of_range ∧
  SettingsDock.in_range loaded ∧
  SettingsDock.chunk_size_spin loaded = 4096 ∧
  SettingsDock.theme_combo loaded = -1.
Proof.
  cbv zeta.
  pose proof (load_clamps_into_range (H := Qgis.default_constructed)
                SettingsDock._setup_ui SettingsDock.store_out_of_range
                well_typed_store_out_of_range)
    as (Hrange & _ & _ & Hchunk & _ & _ & _ & Htheme & _).
  split; [exact well_typed_store_out_of_range |].
  split; [exact Hrange |].
  split; [exact (Hchunk 999999 eq_refl) | exact (Htheme 7 eq_refl)].
Defined.

(** X3 at the same store. *)
Lemma loaded_panel_survives_save_and_reload_witness :
  let loaded :=
    SettingsDock._load_settings (H := Qgis.default_constructed)
      SettingsDock._setup_ui SettingsDock.store_out_of_range in
  SettingsDock.well_typed SettingsDock.store_out_of_range ∧
  SettingsDock.fields
    (SettingsDock.__init__ (H := Qgis.default_constructed)
       (SettingsDock._save_settings loaded ∅
          (Qgis.Build_QgisInterface [] [] [] [] [] [])).1.2)
    = SettingsDock.fields loaded.
Proof.
  cbv zeta. split; [exact well_typed_store_out_of_range |].
  exact (loaded_panel_survives_save_and_reload (H := Qgis.default_constructed)
           SettingsDock._setup_ui SettingsDock.store_out_of_range ∅
           (Qgis.Build_QgisInterface [] [] [] [] [] [])
           well_typed_store_out_of_range).
Defined.

(** X4 at a key of another plugin. *)
Lemma save_touches_only_its_keys_witness :
  let settings : gmap string Qgis.QVariant :=
    {[ "OtherPlugin/chunk_size" := Qgis.VInt 7 ]} in
  String.prefix SettingsDock.SETTINGS_PREFIX "OtherPlugin/chunk_size" = false ∧
  (SettingsDock._save_settings SettingsDock.panel_1024_8192 settings
     (Qgis.Build_QgisInterface [] [] [] [] [] [])).1.2
    !! "OtherPlugin/chunk_size" = Some (Qgis.VInt 7).
Proof.
  cbv zeta. split; [reflexivity |].
  pose proof (save_touches_only_its_keys SettingsDock.panel_1024_8192
                {[ "OtherPlugin/chunk_size" := Qgis.VInt 7 ]}
                (Qgis.Build_QgisInterface [] [] [] [] [] []))
    as (_ & Hframe & _).
  cbv zeta in Hframe.
  rewrite (Hframe "OtherPlugin/chunk_size" eq_refl).
  apply lookup_singleton_eq.
Defined.

(** ** The sample panel: selection, notifications after a close, run and
    clear *)

Section SampleFurther.
Import Py Qt Qgis SampleDock.

Lemma select_in_rebuilt_list project self0 (k : nat) layer :
  project !! k = Some layer →
  layer_combo (select_layer (Z.of_nat (S k)) (_populate_layers project self0)) =
    {| items := sentinel :: map layer_item project;
       currentIndex := Z.of_nat (S k) |}.
Proof.
  intros Hk. apply lookup_lt_Some in Hk.
  unfold select_layer. cbn [set_layer_combo layer_combo].
  rewrite populate_layers_combo. unfold setCurrentIndex. cbn [items].
  f_equal. apply QComboBox_setCurrentIndex_id.
  cbn [List.length]. rewrite length_map. lia.
Qed.

(** X7. After a rebuild, picking the entry of a loaded layer makes that
    layer's id the current data, and the report of a run names it (a
    layer whose id is the empty string is reported as "None"); picking
    an index outside the list leaves no current item. *)
Theorem selected_layer_is_reported project self0 (k : nat) layer iface :
  project !! k = Some layer →
  let rebuilt := _populate_layers project self0 in
  let self := select_layer (Z.of_nat (S k)) rebuilt in
  currentData (layer_combo self) = Some (id layer) ∧
  output_text (_run_action self iface).1 =
    join_lines
      (output_lines (Some (id layer)) (text_input self0) (number_spin self0)
         (option_check self0) (file_input self0)) ∧
  output_lines (Some (id layer)) (text_input self0) (number_spin self0)
    (option_check self0) (file_input self0) !! 2%nat =
    Some ("Selected Layer ID: " +:+ str_or (id layer) "None") ∧
  ∀ i, i < 0 ∨ Z.of_nat (List.length project) < i →
       currentData (layer_combo (select_layer i rebuilt)) = None.
Proof.
  intros Hk. cbv zeta.
  assert (currentData
            (layer_combo
               (select_layer (Z.of_nat (S k)) (_populate_layers project self0)))
          = Some (id layer)) as Hdata.
  { rewrite (select_in_rebuilt_list _ _ _ _ Hk). unfold currentData.
    cbn [currentIndex items]. rewrite Nat2Z.id. cbn [lookup list_lookup].
    change (map layer_item project !! k) with ((layer_item <$> project) !! k).
    rewrite list_lookup_fmap, Hk. cbn. case_decide; [done | lia]. }
  split; [done |]. split; [| split; [done |]].
  - unfold _run_action. cbn [fst output_text set_status set_progress set_output].
    by rewrite Hdata.
  - intros i Hi. unfold select_layer. cbn [set_layer_combo layer_combo].
    rewrite populate_layers_combo. unfold setCurrentIndex, currentData.
    cbn [items currentIndex List.length]. rewrite length_map.
    unfold QComboBox_setCurrentIndex.
    destruct (decide (0 <= i < Z.of_nat (S (List.length project))));
      [lia |]. by case_decide.
Qed.

(** X8. A panel that has been closed no longer follows the project: a
    layers-added notification leaves it as it is, and a panel built over
    one set of layers and then closed still lists exactly those layers
    after later additions and removals. *)
Theorem closed_panel_ignores_layer_changes self project before :
  let closed := (closeEvent self).1.2 in
  layersAdded project closed = closed ∧
  let closed' := (closeEvent (__init__ before)).1.2 in
  layersRemoved project (layersAdded project closed') = closed' ∧
  layer_combo closed' =
    {| items := sentinel :: map layer_item before; currentIndex := 0 |}.
Proof.
  cbv zeta. split; [| split].
  - by destruct self as [? ? ? ? ? ? ? ? ? [] []].
  - reflexivity.
  - replace (layer_combo (closeEvent (__init__ before)).1.2)
      with (layer_combo (__init__ before)) by reflexivity.
    unfold __init__, _setup_ui. cbn [set_connections layer_combo].
    apply populate_layers_combo.
Qed.

(** X9. A run changes the output, the status and the progress bar only:
    inputs, layer list and connections are as before, the progress bar
    ends hidden at 100, and running again without touching the inputs
    gives the same panel. *)
Theorem run_action_changes_only_the_output self iface iface' :
  let ran := (_run_action self iface).1 in
  layer_combo ran = layer_combo self ∧
  text_input ran = text_input self ∧
  number_spin ran = number_spin self ∧
  option_check ran = option_check self ∧
  file_input ran = file_input self ∧
  layersAdded_connected ran = layersAdded_connected self ∧
  layersRemoved_connected ran = layersRemoved_connected self ∧
  progress_visible ran = false ∧
  progress_value ran = 100 ∧
  (_run_action ran iface').1 = ran.
Proof. cbv zeta. repeat split. Qed.

(** X10. Clearing after a run empties the output and puts the status
    back to the initial "Ready" in gray, leaving inputs and layer list
    alone; on a panel as built it changes nothing. *)
Theorem clear_output_resets_report_and_status self iface project :
  let cleared := _clear_output (_run_action self iface).1 in
  output_text cleared = EmptyString ∧
  status_label cleared = status_label (__init__ project) ∧
  layer_combo cleared = layer_combo self ∧
  text_input cleared = text_input self ∧
  number_spin cleared = number_spin self ∧
  option_check cleared = option_check self ∧
  file_input cleared = file_input self ∧
  _clear_output (__init__ project) = __init__ project.
Proof. cbv zeta. repeat split. Qed.

(** X11. Browsing for a file: a cancelled picker (empty path) leaves the
    panel as it is; a chosen path becomes the file field, nothing else
    changes, and the next report shows it on its file line. *)
Theorem browse_file_sets_only_the_path self file_path iface :
  _browse_file EmptyString self = self ∧
  (file_path ≠ EmptyString →
   let picked := _browse_file file_path self in
   file_input picked = file_path ∧
   layer_combo picked = layer_combo self ∧
   text_input picked = text_input self ∧
   number_spin picked = number_spin self ∧
   option_check picked = option_check self ∧
   output_text picked = output_text self ∧
   status_label picked = status_label self ∧
   output_text (_run_action picked iface).1 =
     join_lines
       (output_lines (currentData (layer_combo self)) (text_input self)
          (number_spin self) (option_check self) file_path) ∧
   output_lines (currentData (layer_combo self)) (text_input self)
     (number_spin self) (option_check self) file_path !! 6%nat =
     Some ("File Path: " +:+ file_path)).
Proof.
  split; [reflexivity |]. intros Hne. cbv zeta. unfold _browse_file.
  case_decide; [done |]. cbn. repeat split.
  unfold str_or. by case_decide.
Qed.

End SampleFurther.

(** X7 at a project with one layer, picked in a freshly built panel. *)
Lemma selected_layer_is_reported_witness :
  let layer := {| Qgis.id := "roads_1"; Qgis.name := "roads" |} in
  let self :=
    SampleDock.select_layer 1
      (SampleDock._populate_layers [layer] (SampleDock.__init__ [])) in
  [layer] !! 0%nat = Some layer ∧
  Qt.currentData (SampleDock.layer_combo self) = Some "roads_1".
Proof.
  cbv zeta. split; [reflexivity |].
  exact (proj1 (selected_layer_is_reported
                  [{| Qgis.id := "roads_1"; Qgis.name := "roads" |}]
                  (SampleDock.__init__ []) 0
                  {| Qgis.id := "roads_1"; Qgis.name := "roads" |}
                  (Qgis.Build_QgisInterface [] [] [] [] [] []) eq_refl)).
Defined.

(** X11 at a freshly built panel and one chosen file. *)
Lemma browse_file_sets_only_the_path_witness :
  "/data/dem.tif" ≠ EmptyString ∧
  SampleDock.file_input
    (SampleDock._browse_file "/data/dem.tif" (SampleDock.__init__ []))
    = "/data/dem.tif".
Proof.
  split; [discriminate |].
  exact (proj1 (proj2 (browse_file_sets_only_the_path (SampleDock.__init__ [])
                         "/data/dem.tif"
                         (Qgis.Build_QgisInterface [] [] [] [] [] []))
                  ltac:(discriminate))).
Defined.

(** ** The controller: registering actions, toggling, unloading *)

Section PluginFurther.
Import Py Qt Qgis Plugin.

(** Case analysis on an event and on the part of the state it reads. *)
Ltac event_cases self ev :=
  destruct self as [i dir acts m t sd td sa ta];
  destruct ev as [att | att | att | att | v | v];
  [ destruct att as [e | e | w [[] | e]], sd as [[ws ns [] []] |], sa as [|sa]
  | destruct att as [e | e | w [[] | e]], td as [[wt nt [] []] |], ta as [|ta]
  | destruct att as [e | e | w [[] | e]], sd as [[ws ns [] []] |], sa as [|sa]
  | destruct att as [e | e | w [[] | e]], td as [[wt nt [] []] |], ta as [|ta]
  | destruct sd as [[ws ns [] []] |], sa as [|sa], v
  | destruct td as [[wt nt [] []] |], ta as [|ta], v ].

(** Events touch the panels, the check marks, the host's dock list and
    the message boxes; everything else stays. *)
Lemma step_frame self ev :
  let self' := step self ev in
  menu self' = menu self ∧
  toolbar self' = toolbar self ∧
  plugin_dir self' = plugin_dir self ∧
  sample_action self' = sample_action self ∧
  settings_action self' = settings_action self ∧
  List.length (actions self') = List.length (actions self) ∧
  message_bar (iface self') = message_bar (iface self) ∧
  menu_bar (iface self') = menu_bar (iface self) ∧
  tool_bars (iface self') = tool_bars (iface self) ∧
  plugin_menu_removals (iface self') = plugin_menu_removals (iface self).
Proof.
  unfold step. event_cases self ev.
  all: lazy -[alter list_alter List.length app]; rewrite ?length_alter;
    repeat split.
Qed.

Lemma run_frame evs self :
  let self' := run evs self in
  menu self' = menu self ∧
  toolbar self' = toolbar self ∧
  sample_action self' = sample_action self ∧
  settings_action self' = settings_action self ∧
  List.length (actions self') = List.length (actions self) ∧
  plugin_menu_removals (iface self') = plugin_menu_removals (iface self).
Proof.
  revert self. induction evs as [|ev evs IH]; intros self; [done |].
  change (run (ev :: evs) self) with (run evs (step self ev)).
  specialize (IH (step self ev)). cbv zeta in *.
  destruct (step_frame self ev) as (Hm & Ht & _ & Hs & Hts & Hl & _ & _ & _ & Hp).
  destruct IH as (? & ? & ? & ? & ? & ?).
  repeat split; congruence.
Qed.

Lemma step_tracked self ev : docks_tracked self → docks_tracked (step self ev).
Proof.
  unfold step, docks_tracked. event_cases self ev.
  all: lazy -[alter list_alter List.length app elem_of not].
  all: try tauto.
  all: intros [Hs Ht]; split; try done.
  all: try destruct td as [?|]; try destruct sd as [?|]; try done.
  all: rewrite elem_of_app, list_elem_of_singleton; intros [? | ?]; done.
Qed.

Lemma step_docks self ev :
  dock_widgets (iface (step self ev)) = dock_widgets (iface self) ∨
  dock_widgets (iface (step self ev)) =
    (dock_widgets (iface self) ++ ["PluginTemplateSampleDock"])%list ∨
  dock_widgets (iface (step self ev)) =
    (dock_widgets (iface self) ++ ["PluginTemplateSettingsDock"])%list.
Proof.
  unfold step. event_cases self ev.
  all: lazy -[alter list_alter List.length app].
  all: first [by left | by right; left | by right; right].
Qed.

Lemma run_docks evs self :
  docks_tracked self →
  docks_tracked (run evs self) ∧
  ∃ added,
    dock_widgets (iface (run evs self)) =
      (dock_widgets (iface self) ++ added)%list ∧
    Forall (λ n, n = "PluginTemplateSampleDock"
                 ∨ n = "PluginTemplateSettingsDock") added.
Proof.
  revert self. induction evs as [|ev evs IH]; intros self Ht.
  { split; [done |]. exists []. by rewrite app_nil_r. }
  change (run (ev :: evs) self) with (run evs (step self ev)).
  destruct (IH (step self ev) (step_tracked _ _ Ht)) as (Ht' & added & Hd & Ha).
  split; [done |]. rewrite Hd.
  destruct (step_docks self ev) as [-> | [-> | ->]].
  - by exists added.
  - exists ("PluginTemplateSampleDock" :: added).
    split; [by rewrite <- app_assoc | constructor; auto].
  - exists ("PluginTemplateSettingsDock" :: added).
    split; [by rewrite <- app_assoc | constructor; auto].
Qed.

Lemma filter_keeps {A} (P : A → Prop) `{∀ x, Decision (P x)} (l : list A) :
  Forall P l → filter P l = l.
Proof.
  induction 1 as [|x l Hx _ IH]; [done |].
  by rewrite filter_cons_True, IH.
Qed.


Lemma filter_ext_Forall {A} (P Q : A → Prop) `{∀ x, Decision (P x)}
    `{∀ x, Decision (Q x)} (l : list A) :
  Forall (λ x, P x ↔ Q x) l → filter P l = filter Q l.
Proof.
  induction 1 as [|x l Hx _ IH]; [done |].
  destruct (decide (P x)) as [HP | HP].
  - rewrite !filter_cons_True by tauto. by rewrite IH.
  - rewrite !filter_cons_False by tauto. done.
Qed.

Lemma removePluginMenu_docks name refs i :
  dock_widgets (foldl (λ i ref, removePluginMenu name ref i) i refs) =
    dock_widgets i.
Proof.
  revert i. induction refs as [|r refs IH]; intros i; [done |].
  cbn [foldl]. by rewrite IH.
Qed.

Lemma unload_docks self :
  docks_tracked self →
  dock_widgets (iface (unload self).2) =
    filter (λ n, n ≠ "PluginTemplateSampleDock"
                 ∧ n ≠ "PluginTemplateSettingsDock")
      (dock_widgets (iface self)).
Proof.
  destruct self as [i dir acts m t sd td sa ta].
  unfold docks_tracked. cbn [_sample_dock _settings_dock iface].
  intros [Hs Ht].
  assert (dock_widgets (iface (unload
            {| iface := i; plugin_dir := dir; actions := acts; menu := m;
               toolbar := t; _sample_dock := sd; _settings_dock := td;
               sample_action := sa; settings_action := ta |}).2) =
          match sd, td with
          | Some d, Some d' =>
              filter (λ n, n ≠ objectName d')
                (filter (λ n, n ≠ objectName d) (dock_widgets i))
          | Some d, None => filter (λ n, n ≠ objectName d) (dock_widgets i)
          | None, Some d' => filter (λ n, n ≠ objectName d') (dock_widgets i)
          | None, None => dock_widgets i
          end) as ->.
  { destruct sd, td, t as [|[tb|]], m;
      lazy -[foldl seq List.length filter removePluginMenu];
      apply removePluginMenu_docks. }
  destruct sd as [d|], td as [d'|]; rewrite ?Hs, ?Ht.
  - rewrite list_filter_filter. apply list_filter_iff. tauto.
  - apply filter_ext_Forall, Forall_forall. intros n Hn.
    split; [| tauto]. intros ?. split; [done |]. by intros ->.
  - apply filter_ext_Forall, Forall_forall. intros n Hn.
    split; [| tauto]. intros ?. split; [by intros -> | done].
  - symmetry. apply filter_keeps, Forall_forall. intros n Hn.
    split; by intros ->.
Qed.

(** X15. When the host had no dock under the plugin's two object names,
    then after any toggles and visibility changes one [unload] leaves
    the host's dock list exactly as it was before the plugin was loaded,
    has called [removePluginMenu] once for each of the four actions, in
    order, and has scheduled the menu for deletion. *)
Theorem unload_releases_docks i dir exists_ evs :
  "PluginTemplateSampleDock" ∉ dock_widgets i →
  "PluginTemplateSettingsDock" ∉ dock_widgets i →
  let self := run evs (loaded i dir exists_) in
  let unloaded := (unload self).2 in
  dock_widgets (iface unloaded) = dock_widgets i ∧
  plugin_menu_removals (iface unloaded) =
    (plugin_menu_removals i ++
     [("&Plugin Template", 0%nat); ("&Plugin Template", 1%nat);
      ("&Plugin Template", 2%nat); ("&Plugin Template", 3%nat)])%list ∧
  ∃ m, menu unloaded = Some m ∧ menu_deleteLater m = true.
Proof.
  intros Hs Ht. cbv zeta.
  assert (docks_tracked (loaded i dir exists_)) as Htr by (by split).
  destruct (run_docks evs _ Htr) as (Htr' & added & Hd & Ha).
  destruct (run_frame evs (loaded i dir exists_))
    as (Hm & Htb & _ & _ & Hlen & Hp).
  split; [| split].
  - rewrite unload_docks, Hd by done.
    change (dock_widgets (iface (loaded i dir exists_))) with (dock_widgets i).
    rewrite filter_app, filter_keeps.
    2:{ apply Forall_forall. intros n Hn. split; by intros ->. }
    replace (filter _ added) with (@nil string); [by rewrite app_nil_r |].
    symmetry. clear -Ha. induction Ha as [|n added [-> | ->] _ IH]; [done | |];
      by rewrite filter_cons_False by tauto.
  - destruct (run evs (loaded i dir exists_)) as [i' dir' acts m t sd td sa ta].
    cbn in Hm, Htb, Hlen, Hp. subst m t.
    destruct acts as [|? [|? [|? [|? [|? ?]]]]]; try done.
    destruct sd, td; cbn; rewrite Hp, <- ?app_assoc; done.
  - destruct (run evs (loaded i dir exists_)) as [i' dir' acts m t sd td sa ta].
    cbn in Hm, Htb. subst m t.
    destruct sd, td; lazy -[foldl seq List.length filter removePluginMenu];
      eexists; split; reflexivity.
Qed.

(** X12. On a plugin whose toolbar and menu exist, [add_action] returns
    the new action, appended as the last element of [self.actions] with
    the fields it was given and unchecked; earlier actions are untouched;
    the toolbar and the menu receive it exactly when their flags ask for
    it; nothing else of the plugin changes. *)
Theorem add_action_appends_one_action self icon_path text cb enabled_flag
    add_to_menu add_to_toolbar status_tip is_checkable tb m :
  toolbar self = Bound (Some tb) →
  menu self = Some m →
  let result :=
    add_action icon_path text cb enabled_flag add_to_menu add_to_toolbar
      status_tip is_checkable self in
  let ref := List.length (actions self) in
  let action :=
    {| icon := icon_path; label := text; triggered := cb;
       enabled := enabled_flag; checkable := is_checkable; checked := false;
       statusTip := status_tip |} in
  result.1 = Returns ref ∧
  actions result.2 = (actions self ++ [action])%list ∧
  actions result.2 !! ref = Some action ∧
  (∀ k, (k < ref)%nat → actions result.2 !! k = actions self !! k) ∧
  toolbar result.2 =
    Bound
      (Some
         {| toolbar_title := toolbar_title tb;
            toolbar_objectName := toolbar_objectName tb;
            toolbar_actions :=
              if add_to_toolbar then (toolbar_actions tb ++ [ref])%list
              else toolbar_actions tb |}) ∧
  menu result.2 =
    Some
      {| menu_title := menu_title m;
         menu_entries :=
           if add_to_menu then (menu_entries m ++ [ActionEntry ref])%list
           else menu_entries m;
         menu_deleteLater := menu_deleteLater m |} ∧
  iface result.2 = iface self ∧
  _sample_dock result.2 = _sample_dock self ∧
  _settings_dock result.2 = _settings_dock self ∧
  sample_action result.2 = sample_action self ∧
  settings_action result.2 = settings_action self.
Proof.
  intros Htb Hm. destruct self as [i dir acts m' t sd td sa ta].
  cbn in Htb, Hm. subst t m'. destruct tb, m.
  cbv zeta.
  destruct add_to_menu, add_to_toolbar;
    lazy -[app List.length lookup];
    (split; [done |]); (split; [done |]);
    (split; [by apply list_lookup_middle |]);
    (split; [by intros k Hk; apply lookup_app_l |]);
    repeat split.
Qed.

(** X13. Before [initGui] there is neither toolbar nor menu: an
    [add_action] that is to add to either of them raises
    [AttributeError] and leaves the plugin as it was (nothing is
    appended to [self.actions]); with both flags off it returns and
    appends the action. *)
Theorem add_action_before_initGui i dir icon_path text cb enabled_flag
    add_to_menu add_to_toolbar status_tip is_checkable :
  let self := __init__ i dir in
  add_action icon_path text cb enabled_flag add_to_menu add_to_toolbar
    status_tip is_checkable self =
  if add_to_toolbar || add_to_menu
  then (Raises (no_attribute "NoneType" "addAction"), self)
  else
    (Returns 0%nat,
     set_actions
       [{| icon := icon_path; label := text; triggered := cb;
           enabled := enabled_flag; checkable := is_checkable;
           checked := false; statusTip := status_tip |}] self).
Proof. by destruct add_to_menu, add_to_toolbar. Qed.

(** X14. [initGui] on a fresh plugin returns and registers four actions
    in this order: the two checkable, unchecked panel toggles, which are
    in the toolbar and in the menu, then, after a separator, the update
    check and the about entry, which are in the menu only.  Each of the
    three themed icons is the plugin's own file when it exists and the
    host's default otherwise; the menu and the toolbar are added to the
    main window; no dock is. *)
Theorem initGui_registers_four_actions i dir exists_ :
  let result := initGui exists_ (__init__ i dir) in
  let icon_base := path_join dir "icons" in
  result.1 = Returns tt ∧
  label <$> actions result.2 =
    ["Sample Panel"; "Settings Panel"; "Check for Updates...";
     "About Plugin Template"] ∧
  triggered <$> actions result.2 =
    [cb_toggle_sample_dock; cb_toggle_settings_dock; cb_show_update_checker;
     cb_show_about] ∧
  checkable <$> actions result.2 = [true; true; false; false] ∧
  checked <$> actions result.2 = [false; false; false; false] ∧
  enabled <$> actions result.2 = [true; true; true; true] ∧
  icon <$> actions result.2 =
    [icon_or exists_ (path_join icon_base "icon.png")
       ":/images/themes/default/mActionAddRasterLayer.svg";
     icon_or exists_ (path_join icon_base "settings.svg")
       ":/images/themes/default/mActionOptions.svg";
     ":/images/themes/default/mActionRefresh.svg";
     icon_or exists_ (path_join icon_base "about.svg")
       ":/images/themes/default/mActionHelpContents.svg"] ∧
  sample_action result.2 = Bound 0%nat ∧
  settings_action result.2 = Bound 1%nat ∧
  toolbar result.2 =
    Bound
      (Some
         {| toolbar_title := "Plugin Template Toolbar";
            toolbar_objectName := "PluginTemplateToolbar";
            toolbar_actions := [0%nat; 1%nat] |}) ∧
  menu result.2 =
    Some
      {| menu_title := "&Plugin Template";
         menu_entries :=
           [ActionEntry 0; ActionEntry 1; Separator; ActionEntry 2;
            ActionEntry 3];
         menu_deleteLater := false |} ∧
  menu_bar (iface result.2) = (menu_bar i ++ ["&Plugin Template"])%list ∧
  tool_bars (iface result.2) = (tool_bars i ++ ["PluginTemplateToolbar"])%list ∧
  dock_widgets (iface result.2) = dock_widgets i.
Proof.
  cbv zeta. lazy -[path_join icon_or app]. repeat split.
Qed.

(** X16. [unload] on a plugin on which [initGui] never ran returns and
    changes nothing: there is no panel, no action, and both the toolbar
    and the menu guards meet [None]. *)
Theorem unload_before_initGui i dir :
  unload (__init__ i dir) = (Returns tt, __init__ i dir).
Proof. reflexivity. Qed.

(** X17. Toggling a panel the controller already holds never rebuilds
    it: whatever a construction would answer, the visibility and the
    check mark flip, the panel inside and the host are untouched, and a
    second toggle gives back exactly the state before the first. *)
Theorem toggle_twice_restores_the_state self :
  wired self → consistent self →
  (∀ d a1 a2,
     _sample_dock self = Some d →
     let once := (toggle_sample_dock a1 self).2 in
     dock_visible (_sample_dock once) = negb (visible d) ∧
     sample_checked once = negb (visible d) ∧
     (widget <$> _sample_dock once) = Some (widget d) ∧
     iface once = iface self ∧
     (toggle_sample_dock a2 once).2 = self) ∧
  (∀ d a1 a2,
     _settings_dock self = Some d →
     let once := (toggle_settings_dock a1 self).2 in
     dock_visible (_settings_dock once) = negb (visible d) ∧
     settings_checked once = negb (visible d) ∧
     (widget <$> _settings_dock once) = Some (widget d) ∧
     iface once = iface self ∧
     (toggle_settings_dock a2 once).2 = self).
Proof.
  intros (Hs & Ht & (a0 & a1' & a2' & a3 & Ha & Hc0 & Hc1) & _ & Hcs & Hct)
         [Hvs Hvt].
  destruct self as [i dir acts m t sd td sa ta].
  cbn in Hs, Ht, Ha, Hcs, Hct. subst sa ta acts.
  unfold sample_checked, settings_checked in *. cbn in Hvs, Hvt.
  destruct a0 as [? ? ? ? c0 k0 ?], a1' as [? ? ? ? c1 k1 ?].
  cbn in Hc0, Hc1. subst c0 c1.
  split; intros d b1 b2 Hd; cbn in Hd; subst;
    destruct d as [w n v c];
    [specialize (Hcs _ eq_refl) | specialize (Hct _ eq_refl)];
    cbn in Hcs, Hct, Hvs, Hvt; subst;
    destruct v; destruct i; lazy; repeat split.
Qed.

(** X18. The first toggle of a panel whose construction succeeds
    returns, keeps the new panel under its object name, shown and with
    its visibility signal connected, adds it to the host's docks, checks
    the toggle control and shows no message box. *)
Theorem first_toggle_builds_and_shows_the_panel self :
  wired self →
  (∀ w, _sample_dock self = None →
     let result := toggle_sample_dock (Constructed w (Returns tt)) self in
     result.1 = Returns tt ∧
     _sample_dock result.2 =
       Some {| widget := w; objectName := "PluginTemplateSampleDock";
               visible := true; visibilityChanged_connected := true |} ∧
     sample_checked result.2 = true ∧
     dock_widgets (iface result.2) =
       (dock_widgets (iface self) ++ ["PluginTemplateSampleDock"])%list ∧
     dialogs (iface result.2) = dialogs (iface self)) ∧
  (∀ w, _settings_dock self = None →
     let result := toggle_settings_dock (Constructed w (Returns tt)) self in
     result.1 = Returns tt ∧
     _settings_dock result.2 =
       Some {| widget := w; objectName := "PluginTemplateSettingsDock";
               visible := true; visibilityChanged_connected := true |} ∧
     settings_checked result.2 = true ∧
     dock_widgets (iface result.2) =
       (dock_widgets (iface self) ++ ["PluginTemplateSettingsDock"])%list ∧
     dialogs (iface result.2) = dialogs (iface self)).
Proof.
  intros (Hs & Ht & (a0 & a1' & a2' & a3 & Ha & Hc0 & Hc1) & _).
  destruct self as [i dir acts m t sd td sa ta].
  cbn in Hs, Ht, Ha. subst sa ta acts.
  destruct a0 as [? ? ? ? c0 k0 ?], a1' as [? ? ? ? c1 k1 ?].
  cbn in Hc0, Hc1. subst c0 c1.
  unfold sample_checked, settings_checked.
  split; intros w Hd; cbn in Hd; subst; lazy -[app]; repeat split.
Qed.

(** X19. A toggle of one panel, building it, failing to, showing or
    hiding it, never changes the other panel nor the other toggle
    control. *)
Theorem toggles_leave_the_other_panel_alone self :
  wired self →
  (∀ attempt,
     let after := (toggle_sample_dock attempt self).2 in
     _settings_dock after = _settings_dock self ∧
     settings_checked after = settings_checked self) ∧
  (∀ attempt,
     let after := (toggle_settings_dock attempt self).2 in
     _sample_dock after = _sample_dock self ∧
     sample_checked after = sample_checked self).
Proof.
  intros (Hs & Ht & (a0 & a1' & a2' & a3 & Ha & _) & _).
  destruct self as [i dir acts m t sd td sa ta].
  cbn in Hs, Ht, Ha. subst sa ta acts.
  unfold sample_checked, settings_checked.
  split; intros [e | e | w [[] | e]];
    destruct sd as [[? ? [] []] |], td as [[? ? [] []] |];
    lazy; repeat split.
Qed.

(** X21. [show_update_checker]: an [ImportError] from the import is
    reported in a critical box and the method returns; an exception of
    another class raised by the import is not caught and leaves the
    plugin untouched; any exception from building or running the dialog
    is reported in a critical box and the method returns; without a
    failure nothing is shown.  Actions, menu, toolbar, panels and the
    host's docks are never changed. *)
Theorem show_update_checker_reports_failures self import_ open_dialog :
  let result := show_update_checker import_ open_dialog self in
  match import_, open_dialog with
  | Raises e, _ =>
      match exn_type e with
      | ImportError =>
          result.1 = Returns tt ∧
          dialogs (iface result.2) =
            (dialogs (iface self) ++
             [Critical "Error"
                ("Failed to import update checker dialog:" +:+ newline
                 +:+ exn_str e)])%list
      | _ =>
          result.1 = Raises e ∧ result.2 = self
      end
  | Returns _, Raises e =>
      result.1 = Returns tt ∧
      dialogs (iface result.2) =
        (dialogs (iface self) ++
         [Critical "Error"
            ("Failed to open update checker:" +:+ newline +:+ exn_str e)])%list
  | Returns _, Returns _ =>
      result.1 = Returns tt ∧ result.2 = self
  end ∧
  actions result.2 = actions self ∧
  menu result.2 = menu self ∧
  toolbar result.2 = toolbar self ∧
  _sample_dock result.2 = _sample_dock self ∧
  _settings_dock result.2 = _settings_dock self ∧
  dock_widgets (iface result.2) = dock_widgets (iface self).
Proof.
  cbv zeta. destruct self as [i dir acts m t sd td sa ta], i.
  destruct import_ as [[] | [[] msg]], open_dialog as [[] | e'];
    lazy -[app String.append]; repeat split.
Qed.

(** X22. [unload] does not empty [self.actions]: when [initGui] runs
    again on the unloaded plugin it returns, [self.actions] holds eight
    actions, the four old ones and four new ones after them, and the
    toggle controls and the new toolbar refer to the new, unchecked
    actions at positions 4 and 5. *)
Theorem initGui_after_unload_keeps_the_old_actions i dir exists_ evs exists' :
  let self := run evs (loaded i dir exists_) in
  let again := initGui exists' (unload self).2 in
  again.1 = Returns tt ∧
  List.length (actions self) = 4%nat ∧
  List.length (actions (unload self).2) = 4%nat ∧
  List.length (actions again.2) = 8%nat ∧
  sample_action again.2 = Bound 4%nat ∧
  settings_action again.2 = Bound 5%nat ∧
  toolbar again.2 =
    Bound
      (Some
         {| toolbar_title := "Plugin Template Toolbar";
            toolbar_objectName := "PluginTemplateToolbar";
            toolbar_actions := [4%nat; 5%nat] |}) ∧
  sample_checked again.2 = false ∧
  settings_checked again.2 = false.
Proof.
  cbv zeta.
  destruct (loaded_wired i dir exists_) as (Hw & Hc & _).
  destruct (run_wired evs _ Hw Hc)
    as [(_ & _ & (a0 & a1 & a2 & a3 & Ha & _) & (tb & Htb) & _) _].
  destruct (run evs (loaded i dir exists_))
    as [i' dir' acts m t sd td sa ta].
  cbn in Ha, Htb. subst acts t.
  unfold sample_checked, settings_checked.
  destruct sd, td, m; lazy -[path_join icon_or app]; repeat split.
Qed.






End PluginFurther.

(** X12 at the loaded example plugin: one more menu-only action. *)
Lemma add_action_appends_one_action_witness :
  let tb :=
    {| Plugin.toolbar_title := "Plugin Template Toolbar";
       Plugin.toolbar_objectName := "PluginTemplateToolbar";
       Plugin.toolbar_actions := [0%nat; 1%nat] |} in
  let m :=
    {| Plugin.menu_title := "&Plugin Template";
       Plugin.menu_entries :=
         [Plugin.ActionEntry 0; Plugin.ActionEntry 1; Plugin.Separator;
          Plugin.ActionEntry 2; Plugin.ActionEntry 3];
       Plugin.menu_deleteLater := false |} in
  let result :=
    Plugin.add_action ":/icon.svg" "Extra" Plugin.cb_show_about true true
      false None false Plugin.example_plugin in
  (Plugin.toolbar Plugin.example_plugin = Py.Bound (Some tb) ∧
   Plugin.menu Plugin.example_plugin = Some m) ∧
  result.1 = Py.Returns 4%nat ∧
  Plugin.menu result.2 =
    Some
      {| Plugin.menu_title := "&Plugin Template";
         Plugin.menu_entries :=
           [Plugin.ActionEntry 0; Plugin.ActionEntry 1; Plugin.Separator;
            Plugin.ActionEntry 2; Plugin.ActionEntry 3; Plugin.ActionEntry 4];
         Plugin.menu_deleteLater := false |}.
Proof.
  cbv zeta. split; [split; reflexivity |].
  pose proof (add_action_appends_one_action Plugin.example_plugin ":/icon.svg"
                "Extra" Plugin.cb_show_about true true false None false
                {| Plugin.toolbar_title := "Plugin Template Toolbar";
                   Plugin.toolbar_objectName := "PluginTemplateToolbar";
                   Plugin.toolbar_actions := [0%nat; 1%nat] |}
                {| Plugin.menu_title := "&Plugin Template";
                   Plugin.menu_entries :=
                     [Plugin.ActionEntry 0; Plugin.ActionEntry 1;
                      Plugin.Separator; Plugin.ActionEntry 2;
                      Plugin.ActionEntry 3];
                   Plugin.menu_deleteLater := false |}
                eq_refl eq_refl) as (Hret & _ & _ & _ & _ & Hmenu & _).
  split; [exact Hret | exact Hmenu].
Defined.

(** X15 after the sample panel has been opened once. *)
Lemma unload_releases_docks_witness :
  let evs :=
    [Plugin.CallToggleSample
       (Plugin.Constructed (SampleDock.__init__ []) (Py.Returns tt))] in
  let self :=
    Plugin.run evs
      (Plugin.loaded Plugin.empty_iface "/plugins/plugin_template" (λ _, false)) in
  (("PluginTemplateSampleDock" ∉ Qgis.dock_widgets Plugin.empty_iface) ∧
   ("PluginTemplateSettingsDock" ∉ Qgis.dock_widgets Plugin.empty_iface)) ∧
  Qgis.dock_widgets (Plugin.iface self) = ["PluginTemplateSampleDock"] ∧
  Qgis.dock_widgets (Plugin.iface (Plugin.unload self).2) = [].
Proof.
  cbv zeta.
  assert ("PluginTemplateSampleDock" ∉ Qgis.dock_widgets Plugin.empty_iface)
    as Hs by apply not_elem_of_nil.
  assert ("PluginTemplateSettingsDock" ∉ Qgis.dock_widgets Plugin.empty_iface)
    as Ht by apply not_elem_of_nil.
  split; [done |]. split; [reflexivity |].
  exact (proj1 (unload_releases_docks Plugin.empty_iface
                  "/plugins/plugin_template" (λ _, false)
                  [Plugin.CallToggleSample
                     (Plugin.Constructed (SampleDock.__init__ [])
                        (Py.Returns tt))] Hs Ht)).
Defined.

(** X17 at the example plugin with the sample panel open. *)
Lemma toggle_twice_restores_the_state_witness :
  let attempt :=
    Plugin.Constructed (SampleDock.__init__ []) (Py.Returns tt) in
  let self := Plugin.step Plugin.example_plugin (Plugin.CallToggleSample attempt) in
  (Plugin.wired self ∧ Plugin.consistent self) ∧
  Plugin.dock_visible (Plugin._sample_dock self) = true ∧
  Plugin.dock_visible
    (Plugin._sample_dock (Plugin.toggle_sample_dock attempt self).2) = false ∧
  (Plugin.toggle_sample_dock attempt
     (Plugin.toggle_sample_dock attempt self).2).2 = self.
Proof.
  cbv zeta.
  pose proof (loaded_wired Plugin.empty_iface "/plugins/plugin_template"
                (λ _, false)) as (Hw & Hc & _).
  pose proof (step_wired Plugin.example_plugin
                (Plugin.CallToggleSample
                   (Plugin.Constructed (SampleDock.__init__ []) (Py.Returns tt)))
                Hw Hc) as [Hw' Hc'].
  split; [done |]. split; [reflexivity |].
  destruct (proj1 (toggle_twice_restores_the_state _ Hw' Hc') _
              (Plugin.Constructed (SampleDock.__init__ []) (Py.Returns tt))
              (Plugin.Constructed (SampleDock.__init__ []) (Py.Returns tt))
              eq_refl) as (Hvis & _ & _ & _ & Hback).
  split; [exact Hvis | exact Hback].
Defined.

(** X18 at the example plugin. *)
Lemma first_toggle_builds_and_shows_the_panel_witness :
  let result :=
    Plugin.toggle_sample_dock
      (Plugin.Constructed (SampleDock.__init__ []) (Py.Returns tt))
      Plugin.example_plugin in
  Plugin.wired Plugin.example_plugin ∧
  Plugin._sample_dock Plugin.example_plugin = None ∧
  Plugin.sample_checked result.2 = true ∧
  Qgis.dock_widgets (Plugin.iface result.2) = ["PluginTemplateSampleDock"].
Proof.
  cbv zeta.
  pose proof (loaded_wired Plugin.empty_iface "/plugins/plugin_template"
                (λ _, false)) as (Hw & _).
  destruct (proj1 (first_toggle_builds_and_shows_the_panel _ Hw)
              (SampleDock.__init__ []) eq_refl) as (_ & _ & Hchk & Hdocks & _).
  split; [exact Hw |]. split; [reflexivity |].
  split; [exact Hchk | exact Hdocks].
Defined.

(** X19 at the example plugin: opening the sample panel. *)
Lemma toggles_leave_the_other_panel_alone_witness :
  let after :=
    (Plugin.toggle_sample_dock
       (Plugin.Constructed (SampleDock.__init__ []) (Py.Returns tt))
       Plugin.example_plugin).2 in
  Plugin.wired Plugin.example_plugin ∧
  Plugin._settings_dock after = None ∧
  Plugin.settings_checked after = false.
Proof.
  cbv zeta.
  pose proof (loaded_wired Plugin.empty_iface "/plugins/plugin_template"
                (λ _, false)) as (Hw & _).
  destruct (proj1 (toggles_leave_the_other_panel_alone _ Hw)
              (Plugin.Constructed (SampleDock.__init__ []) (Py.Returns tt)))
    as [Hdock Hchk].
  split; [exact Hw |]. split; [exact Hdock | exact Hchk].
Defined.

(** ** The version shown in the about box *)

Section VersionFurther.
Import Py Qt Qgis Plugin.

Lemma strip_prefix_Some p s rest :
  strip_prefix p s = Some rest ↔ s = p +:+ rest.
Proof.
  revert s. induction p as [|a p IH]; intros s; cbn.
  - split; [by intros [= ->] | by intros ->].
  - destruct s as [|b s]; [done |].
    destruct (Ascii.eqb a b) eqn:Hab.
    + apply Ascii.eqb_eq in Hab. subst b. rewrite IH.
      split; [by intros -> | by intros [= ->]].
    + apply Ascii.eqb_neq in Hab. split; [done | by intros [= ? ?]].
Qed.

Lemma string_append_assoc (a b c : string) : (a +:+ b) +:+ c = a +:+ b +:+ c.
Proof.
  induction a as [|x a IH]; [done |].
  change (String x ((a +:+ b) +:+ c) = String x (a +:+ b +:+ c)).
  by rewrite IH.
Qed.

Lemma string_append_nil_r (a : string) : a +:+ EmptyString = a.
Proof.
  induction a as [|x a IH]; [done |].
  change (String x (a +:+ EmptyString) = String x a). by rewrite IH.
Qed.

Lemma string_length_append (a b : string) :
  String.length (a +:+ b) = (String.length a + String.length b)%nat.
Proof.
  induction a as [|x a IH]; [done |].
  change (S (String.length (a +:+ b))
          = S (String.length a + String.length b)).
  by rewrite IH.
Qed.

Lemma string_rev_app_append (a b : string) :
  String.rev_app a b = String.rev a +:+ b.
Proof.
  unfold String.rev. revert b.
  induction a as [|x a IH]; intros b; [done |]. cbn.
  rewrite (IH (String x b)), (IH (String x EmptyString)). rewrite string_append_assoc. done.
Qed.

Lemma string_rev_cons x (a : string) :
  String.rev (String x a) = String.rev a +:+ String x EmptyString.
Proof. unfold String.rev at 1. cbn. apply string_rev_app_append. Qed.

Lemma string_rev_append (a b : string) :
  String.rev (a +:+ b) = String.rev b +:+ String.rev a.
Proof.
  induction a as [|x a IH].
  - change (String.rev b = String.rev b +:+ EmptyString).
    by rewrite string_append_nil_r.
  - change (String.rev (String x (a +:+ b))
            = String.rev b +:+ String.rev (String x a)).
    by rewrite !string_rev_cons, IH, string_append_assoc.
Qed.

Lemma string_rev_involutive (a : string) : String.rev (String.rev a) = a.
Proof.
  induction a as [|x a IH]; [done |].
  by rewrite string_rev_cons, string_rev_append, IH.
Qed.

Lemma strip_one_Some ws s rest :
  strip_one ws s = Some rest → ∃ w, w ∈ ws ∧ s = w +:+ rest.
Proof.
  induction ws as [|w ws IH]; [done |]. cbn.
  destruct (strip_prefix w s) as [r|] eqn:Hp.
  - intros [= ->]. apply strip_prefix_Some in Hp. exists w. split; [left | done].
  - intros Hs. destruct (IH Hs) as (w' & ? & ?). exists w'. split; [by right | done].
Qed.

Lemma strip_one_None ws s :
  strip_one ws s = None → ∀ w rest, w ∈ ws → s ≠ w +:+ rest.
Proof.
  induction ws as [|w ws IH]; cbn.
  - intros _ w rest Hin. by apply elem_of_nil in Hin.
  - destruct (strip_prefix w s) as [r|] eqn:Hp; [done |].
    intros Hs w' rest [-> | Hin]%elem_of_cons.
    + intros Heq. apply strip_prefix_Some in Heq. congruence.
    + by apply IH.
Qed.

(** What stripping on the left does, for any list of non-empty
    prefixes and enough fuel. *)
Lemma lstrip_with_spec ws fuel s :
  Forall (λ w, w ≠ EmptyString) ws →
  (String.length s <= fuel)%nat →
  ∃ parts,
    Forall (λ w, w ∈ ws) parts ∧
    s = foldr String.append EmptyString parts +:+ lstrip_with ws fuel s ∧
    strip_one ws (lstrip_with ws fuel s) = None.
Proof.
  intros Hne. revert s. induction fuel as [|fuel IH]; intros s Hlen.
  - destruct s; [| cbn in Hlen; lia]. exists [].
    split; [apply List.Forall_nil |]. split; [done |]. cbn.
    induction Hne as [|w ws Hw _ IH]; [done |]. cbn. by destruct w.
  - cbn. destruct (strip_one ws s) as [rest|] eqn:Hs.
    + destruct (strip_one_Some _ _ _ Hs) as (w & Hw & ->).
      assert (w ≠ EmptyString) as Hwne
        by (rewrite Forall_forall in Hne; by apply Hne).
      destruct (IH rest) as (parts & Hparts & Heq & Hnone).
      { rewrite string_length_append in Hlen. destruct w; [done |]. cbn in Hlen. lia. }
      exists (w :: parts).
      split; [by apply List.Forall_cons |]. split; [| done].
      cbn [foldr]. rewrite string_append_assoc. by rewrite <- Heq.
    + exists []. split; [apply List.Forall_nil |]. by split.
Qed.

Lemma whitespace_nonempty : Forall (λ w, w ≠ EmptyString) whitespace.
Proof.
  unfold whitespace. cbn.
  repeat (apply List.Forall_cons; [discriminate |]). apply List.Forall_nil.
Qed.

Lemma rev_whitespace_nonempty :
  Forall (λ w, w ≠ EmptyString) (String.rev <$> whitespace).
Proof.
  unfold whitespace. cbn.
  repeat (apply List.Forall_cons; [discriminate |]). apply List.Forall_nil.
Qed.

Lemma string_length_rev (a : string) :
  String.length (String.rev a) = String.length a.
Proof.
  induction a as [|x a IH]; [done |].
  rewrite string_rev_cons, string_length_append, IH. cbn. lia.
Qed.

Lemma rev_concat_parts parts :
  Forall (λ w, w ∈ String.rev <$> whitespace) parts →
  whitespace_only (String.rev (foldr String.append EmptyString parts)).
Proof.
  induction 1 as [|p parts Hp _ (parts' & Hparts' & Heq)].
  - exists []. split; [apply List.Forall_nil | done].
  - cbn [foldr]. rewrite string_rev_append, Heq.
    apply list_elem_of_fmap in Hp as (w & -> & Hw).
    rewrite string_rev_involutive.
    exists (parts' ++ [w])%list. split.
    + apply Forall_app. split; [done |].
      apply List.Forall_cons; [done | apply List.Forall_nil].
    + clear. induction parts' as [|q parts' IH].
      * cbn. by rewrite string_append_nil_r.
      * cbn [foldr app]. by rewrite string_append_assoc, IH.
Qed.

Lemma lstrip_spec s :
  ∃ lead, whitespace_only lead ∧ s = lead +:+ lstrip s ∧
          ¬ starts_with_whitespace (lstrip s).
Proof.
  destruct (lstrip_with_spec whitespace (String.length s) s
              whitespace_nonempty (le_n _)) as (parts & Hparts & Heq & Hnone).
  exists (foldr String.append EmptyString parts).
  split; [by exists parts |]. split; [done |].
  intros (w & rest & Hw & Hs). by eapply strip_one_None.
Qed.

Lemma rstrip_spec s :
  ∃ trail, whitespace_only trail ∧ s = rstrip s +:+ trail ∧
           ¬ ends_with_whitespace (rstrip s).
Proof.
  unfold rstrip.
  destruct (lstrip_with_spec (String.rev <$> whitespace) (String.length s)
              (String.rev s) rev_whitespace_nonempty)
    as (parts & Hparts & Heq & Hnone).
  { by rewrite string_length_rev. }
  exists (String.rev (foldr String.append EmptyString parts)).
  split; [by apply rev_concat_parts |]. split.
  - rewrite <- string_rev_append, <- Heq. by rewrite string_rev_involutive.
  - intros (w & rest & Hw & Hs).
    eapply (strip_one_None _ _ Hnone (String.rev w) (String.rev rest)).
    + by apply list_elem_of_fmap_2.
    + rewrite <- string_rev_append, <- Hs. by rewrite string_rev_involutive.
Qed.

(** [strip] removes whitespace characters, and only those, from both
    ends. *)
Lemma strip_spec s :
  ∃ lead trail,
    whitespace_only lead ∧ whitespace_only trail ∧
    s = lead +:+ strip s +:+ trail ∧
    ¬ starts_with_whitespace (strip s) ∧
    ¬ ends_with_whitespace (strip s).
Proof.
  destruct (lstrip_spec s) as (lead & Hlead & Hs & Hstart).
  destruct (rstrip_spec (lstrip s)) as (trail & Htrail & Hl & Hend).
  exists lead, trail. unfold strip. repeat split; try done.
  - by rewrite <- Hl.
  - intros (w & rest & Hw & Heq). apply Hstart.
    exists w, (rest +:+ trail). split; [done |].
    by rewrite Hl, Heq, string_append_assoc.
Qed.

(** [strip] on a value wrapped in a space, a no-break space (U+00A0), a
    thin space (U+2009) and an ideographic space (U+3000); a space inside
    the value stays. *)
Example strip_unicode_whitespace :
  strip (" " +:+ utf8 [227; 128; 128]%nat +:+ "1.0 rc" +:+ utf8 [194; 160]%nat
         +:+ utf8 [226; 128; 137]%nat) = "1.0 rc".
Proof. vm_compute. reflexivity. Qed.

Lemma version_line_Some line value :
  version_line line = Some value ↔
  line = "version=" +:+ value ∧ value ≠ EmptyString.
Proof.
  unfold version_line.
  destruct (strip_prefix "version=" line) as [rest|] eqn:Hp.
  - apply strip_prefix_Some in Hp. subst line.
    destruct rest as [|c rest].
    + split; [done |]. intros [Heq Hne]. cbn in Heq. by simplify_eq.
    + split; [by intros [= <-] |]. intros [Heq _]. cbn in Heq. by simplify_eq.
  - split; [done |]. intros [Heq _].
    apply strip_prefix_Some in Heq. congruence.
Qed.

Lemma first_version_line_Some lines value :
  first_version_line lines = Some value →
  ("version=" +:+ value) ∈ lines ∧ value ≠ EmptyString.
Proof.
  induction lines as [|line lines IH]; [done |]. cbn.
  destruct (version_line line) as [v|] eqn:Hv.
  - intros [= ->]. apply version_line_Some in Hv as [-> ?].
    split; [left | done].
  - intros Hf. destruct (IH Hf). split; [by right | done].
Qed.

Lemma first_version_line_None lines :
  first_version_line lines = None ↔
  ∀ value, value ≠ EmptyString → ("version=" +:+ value) ∉ lines.
Proof.
  induction lines as [|line lines IH]; cbn.
  - split; [| done]. intros _ v _ Hin. by apply elem_of_nil in Hin.
  - destruct (version_line line) as [v|] eqn:Hv.
    + split; [done |]. intros Hno.
      apply version_line_Some in Hv as [-> Hne].
      destruct (Hno v Hne). left.
    + rewrite IH. split.
      * intros Hno v Hne [Heq | Hin]%elem_of_cons; [| by eapply Hno].
        assert (version_line line = Some v) as Hv'
          by by apply version_line_Some.
        congruence.
      * intros Hno v Hne Hin. eapply Hno; [done | by right].
Qed.

Lemma split_lines_no_newline s :
  Forall (λ line, no_newline line = true) (split_lines s).
Proof.
  induction s as [|c s IH]; cbn [split_lines].
  { apply List.Forall_cons; [reflexivity | apply List.Forall_nil]. }
  destruct (Ascii.eqb c "010") eqn:Hc.
  { apply List.Forall_cons; [reflexivity | assumption]. }
  destruct (split_lines s) as [|line lines].
  { apply List.Forall_cons; [| apply List.Forall_nil]. cbn. by rewrite Hc. }
  inversion IH; subst. apply List.Forall_cons; [| assumption].
  cbn. rewrite Hc. assumption.
Qed.

Lemma no_newline_app p s : no_newline (p +:+ s) = true → no_newline s = true.
Proof.
  induction p as [|a p IH]; [done |]. cbn. intros [_ ?]%andb_prop. auto.
Qed.

(** X20. When the metadata file can be read, the version in the about
    box comes from a line of the file: the value found is non-empty, has
    no newline, and "version=" followed by it is a line of the file.
    The box shows it stripped: what is shown is the value without a run
    of whitespace characters at its start and one at its end, and it
    neither starts nor ends with a whitespace character (ASCII or not).
    When no line has that form the search finds nothing and the box
    shows "Unknown"; no warning is shown in either case. *)
Theorem about_version_comes_from_a_line self open_read content :
  open_read (path_join (plugin_dir self) "metadata.txt") = Returns content →
  let shown := dialogs (iface (show_about open_read self).2) in
  (∀ value,
     re_search_version content = Some value →
     value ≠ EmptyString ∧ no_newline value = true ∧
     ("version=" +:+ value) ∈ split_lines content ∧
     shown =
       (dialogs (iface self) ++
        [About "About Plugin Template" (about_text (strip value))])%list ∧
     ∃ lead trail,
       whitespace_only lead ∧ whitespace_only trail ∧
       value = lead +:+ strip value +:+ trail ∧
       ¬ starts_with_whitespace (strip value) ∧
       ¬ ends_with_whitespace (strip value)) ∧
  ((∀ value, value ≠ EmptyString →
             ("version=" +:+ value) ∉ split_lines content) →
   re_search_version content = None ∧
   shown =
     (dialogs (iface self) ++
      [About "About Plugin Template" (about_text "Unknown")])%list).
Proof.
  intros Hread. cbv zeta.
  assert (dialogs (iface (show_about open_read self).2) =
          (dialogs (iface self) ++
           [About "About Plugin Template"
              (about_text
                 match re_search_version content with
                 | Some value => strip value
                 | None => "Unknown"
                 end)])%list) as Hshown.
  { unfold show_about, bind, read, try_except, message_box, modify.
    cbn [fst snd]. rewrite Hread.
    by destruct (re_search_version content). }
  split.
  - intros value Hv. rewrite Hshown, Hv.
    rewrite re_search_version_first_line in Hv.
    apply first_version_line_Some in Hv as [Hin Hne].
    split; [done |]. split; [| split; [done |]; split; [done |]].
    + pose proof (split_lines_no_newline content) as Hall.
      rewrite Forall_forall in Hall. eapply no_newline_app, Hall, Hin.
    + destruct (strip_spec value) as (lead & trail & ? & ? & ? & ? & ?).
      by exists lead, trail.
  - intros Hno.
    assert (re_search_version content = None) as Hnone.
    { rewrite re_search_version_first_line. by apply first_version_line_None. }
    by rewrite Hshown, Hnone.
Qed.

End VersionFurther.

(** X20 at a metadata file whose version line ends in a no-break space
    (U+00A0): the box shows the version without it. *)
Lemma about_version_comes_from_a_line_witness :
  let value := "0.1.0" +:+ Py.utf8 [194; 160]%nat in
  let content :=
    "name=Plugin Template" +:+ Py.newline +:+ "version=" +:+ value
    +:+ Py.newline in
  let open_read : string → Py.outcome string := λ _, Py.Returns content in
  open_read (Py.path_join (Plugin.plugin_dir Plugin.example_plugin) "metadata.txt")
    = Py.Returns content ∧
  Py.re_search_version content = Some value ∧
  ("version=" +:+ value) ∈ Py.split_lines content ∧
  Qgis.dialogs (Plugin.iface (Plugin.show_about open_read Plugin.example_plugin).2) =
    (Qgis.dialogs (Plugin.iface Plugin.example_plugin) ++
     [Qt.About "About Plugin Template" (Plugin.about_text "0.1.0")])%list.
Proof.
  cbv zeta. split; [reflexivity |]. split; [reflexivity |].
  pose proof (proj1 (about_version_comes_from_a_line Plugin.example_plugin
                     (λ _, Py.Returns
                             ("name=Plugin Template" +:+ Py.newline
                              +:+ "version=" +:+ ("0.1.0" +:+ Py.utf8 [194; 160]%nat)
                              +:+ Py.newline))
                     _ eq_refl) ("0.1.0" +:+ Py.utf8 [194; 160]%nat) eq_refl)
    as (_ & _ & Hline & Hshown & _).
  split; [exact Hline | exact Hshown].
Defined.
